(** * Cross-timezone meeting planner: date classification and awake hours

    A shallow embedding of the computational core of [App.jsx]:
    [getYearsInRange], the holiday fetch effect with its [lastFetchKey]
    guard, the date predicates [isWeekend] / [isHoliday] / [isWorkday], the
    participant handlers and [getCommonAwakeHours].

    JavaScript [Date] objects are represented by their time value, an
    integer number of milliseconds since the epoch.  The built-in methods the
    application calls on them follow ECMA-262 (section "Date Objects"); the
    host time zone enters through [LocalTZA] and the moment-timezone library
    through the interface [MomentTz]. *)

From Stdlib Require Import ZArith Lia Bool List Ascii String.
From stdpp Require Import base tactics option list sorting strings pretty gmap.

Local Open Scope Z_scope.

(** ** Calendar arithmetic of ECMA-262 *)

Module Calendar.

Definition msPerDay : Z := 86400000.
Definition msPerHour : Z := 3600000.
Definition msPerMinute : Z := 60000.
Definition msPerSecond : Z := 1000.

(** [Day(t)] and [TimeWithinDay(t)]; [/] and [mod] on [Z] round down, as
    the floor and modulo of the standard do. *)
Definition Day (t : Z) : Z := t / msPerDay.
Definition TimeWithinDay (t : Z) : Z := t mod msPerDay.

(** 0 is Sunday, 6 is Saturday; day 0 (1 January 1970) was a Thursday. *)
Definition WeekDay (t : Z) : Z := (Day t + 4) mod 7.

Definition HourFromTime (t : Z) : Z := (t / msPerHour) mod 24.

(** Year, month (1..12) and day of month of a day number, in the proleptic
    Gregorian calendar, by the era / day-of-era decomposition. *)
Definition civil_from_days (days : Z) : Z * Z * Z :=
  let z := days + 719468 in
  let era := z / 146097 in
  let doe := z - era * 146097 in
  let yoe := (doe - doe / 1460 + doe / 36524 - doe / 146096) / 365 in
  let doy := doe - (365 * yoe + yoe / 4 - yoe / 100) in
  let mp := (5 * doy + 2) / 153 in
  let d := doy - (153 * mp + 2) / 5 + 1 in
  let m := if mp <? 10 then mp + 3 else mp - 9 in
  let y := yoe + era * 400 in
  (if m <=? 2 then y + 1 else y, m, d).

(** The day number of a calendar date; [m] is 1..12. *)
Definition days_from_civil (y m d : Z) : Z :=
  let y' := if m <=? 2 then y - 1 else y in
  let era := y' / 400 in
  let yoe := y' - era * 400 in
  let mp := if 2 <? m then m - 3 else m + 9 in
  let doy := (153 * mp + 2) / 5 + d - 1 in
  let doe := yoe * 365 + yoe / 4 - yoe / 100 + doy in
  era * 146097 + doe - 719468.

Definition YearFromTime (t : Z) : Z := (civil_from_days (Day t)).1.1.
(** [MonthFromTime] is 0-based, as in the standard. *)
Definition MonthFromTime (t : Z) : Z := (civil_from_days (Day t)).1.2 - 1.
Definition DateFromTime (t : Z) : Z := (civil_from_days (Day t)).2.

(** [MakeDay(year, month, date)]: months beyond 0..11 carry into the
    year; the date is an offset from the first of the month. *)
Definition MakeDay (year month date : Z) : Z :=
  let ym := year + month / 12 in
  let mn := month mod 12 in
  days_from_civil ym (mn + 1) 1 + date - 1.

Definition MakeDate (day time : Z) : Z := day * msPerDay + time.

(** [DayFromYear(y)] of the standard, the day number of 1 January. *)
Definition DayFromYear (y : Z) : Z :=
  365 * (y - 1970) + (y - 1969) / 4 - (y - 1901) / 100 + (y - 1601) / 400.

End Calendar.

Import Calendar.

(** ** Decimal rendering of date fields *)

Definition zeroFill (width : nat) (n : Z) : string :=
  let s := pretty (Z.abs n) in
  String.concat "" (replicate (width - String.length s)%nat "0"%string) +:+ s.

(** The first ten characters of [Date.prototype.toISOString]: a four digit
    year for 0..9999, otherwise a sign and six digits. *)
Definition isoYear (y : Z) : string :=
  if (0 <=? y) && (y <=? 9999) then zeroFill 4 y
  else (if y <? 0 then "-" else "+") +:+ zeroFill 6 y.

Definition isoDateString (t : Z) : string :=
  let '(y, m, d) := civil_from_days (Day t) in
  isoYear y +:+ "-" +:+ zeroFill 2 m +:+ "-" +:+ zeroFill 2 d.

(** moment's [YYYY] token: at least four digits, a minus sign for negative
    years, no truncation. *)
Definition momentYear (y : Z) : string :=
  (if y <? 0 then "-" else "") +:+ zeroFill 4 y.

Definition momentDateString (t : Z) : string :=
  let '(y, m, d) := civil_from_days (Day t) in
  momentYear y +:+ "-" +:+ zeroFill 2 m +:+ "-" +:+ zeroFill 2 d.

Definition slice_0_10 (s : string) : string := String.substring 0 10 s.

(** ** The host's [Date] methods *)

(** The host environment's local time zone adjustment, [LocalTZA(t, isUTC)]
    of ECMA-262, in milliseconds. *)
Class HostZone := LocalTZA : Z → bool → Z.

(** A host whose zone keeps one offset throughout (UTC, Asia/Tokyo, ...). *)
Definition fixedHost (offsetMs : Z) : HostZone := λ _ _, offsetMs.
Definition utcHost : HostZone := fixedHost 0.

Section HostDate.
Context `{hz : HostZone}.

Definition LocalTime (t : Z) : Z := t + LocalTZA t true.
Definition UTC (t : Z) : Z := t - LocalTZA t false.

Definition getDay (d : Z) : Z := WeekDay (LocalTime d).
Definition getFullYear (d : Z) : Z := YearFromTime (LocalTime d).
Definition getDate (d : Z) : Z := DateFromTime (LocalTime d).

(** [d.setDate(dt)]; the result is the new time value of [d]. *)
Definition setDate (d : Z) (dt : Z) : Z :=
  let t := LocalTime d in
  let newDate :=
    MakeDate (MakeDay (YearFromTime t) (MonthFromTime t) dt) (TimeWithinDay t) in
  UTC newDate.

(** [d.toISOString().slice(0, 10)]: the calendar date in UTC. *)
Definition toISOString_slice (d : Z) : string := slice_0_10 (isoDateString d).

(** [moment(d).format('YYYY-MM-DD')]: the calendar date in the host zone. *)
Definition moment_format (d : Z) : string := momentDateString (LocalTime d).

(** *** [getYearsInRange] *)

(** [Set.prototype.add] on a set kept in insertion order. *)
Definition set_add (y : Z) (years : list Z) : list Z :=
  if bool_decide (y ∈ years) then years else years ++ [y].

(** The [while (d <= end)] loop.  [None] means the iteration budget ran
    out before the loop condition became false. *)
Fixpoint yearsLoop (fuel : nat) (d : Z) (end_ : Z) (years : list Z)
  : option (list Z) :=
  match fuel with
  | O => None
  | S fuel' =>
      if d <=? end_
      then yearsLoop fuel' (setDate d (getDate d + 1)) end_
                     (set_add (getFullYear d) years)
      else Some years
  end.

(** [start] and [end_] are [None] for JavaScript's [null]. *)
Definition getYearsInRange (fuel : nat) (start end_ : option Z)
  : option (list Z) :=
  match start, end_ with
  | Some s, Some e => yearsLoop fuel s e []
  | _, _ => Some []
  end.

(** Top-level [isWeekend] (the component re-declares the same body). *)
Definition isWeekend (date : Z) : bool :=
  let day := getDay date in
  (day =? 0) || (day =? 6).

End HostDate.

(** ** Application data *)

(** A participant as built by the map picker; the coordinates are only used
    for the marker and are kept out of the record ([id] is their rendering). *)
Record Participant := mkParticipant {
  p_id : string;
  p_name : string;
  p_iso2 : string;
  p_timezone : string;
  p_time : string;
}.

(** A record of the holiday service. *)
Record HolidayRecord := mkHoliday {
  h_date : string;
  h_localName : string;
  h_name : string;
  h_countryCode : string;
  h_type : string;
}.

(** [s.split(' ')[0]]: the text before the first space. *)
Fixpoint split_space_0 (s : string) : string :=
  match s with
  | EmptyString => EmptyString
  | String c rest =>
      if Ascii.eqb c " "%char then EmptyString else String c (split_space_0 rest)
  end.

(** [Array.from(new Set(xs))]: first occurrences, in order. *)
Definition uniq (xs : list string) : list string :=
  fold_left (λ acc x, if bool_decide (x ∈ acc) then acc else acc ++ [x]) xs [].

(** [.filter(Boolean)] on strings drops the empty ones. *)
Definition truthy (s : string) : bool := negb (String.eqb s "").

Definition countryCodes (selectedParticipants : list Participant) : list string :=
  uniq (filter (λ s, truthy s = true) (map p_iso2 selectedParticipants)).

Definition timezones (selectedParticipants : list Participant) : list string :=
  uniq (filter (λ s, truthy s = true)
               (map (λ p, split_space_0 (p_timezone p)) selectedParticipants)).

(** ** Participant handlers *)

Definition handleAddParticipant (selectedParticipants : list Participant)
    (participant : Participant) : list Participant :=
  if negb (existsb (λ p, String.eqb (p_id p) (p_id participant)) selectedParticipants)
  then selectedParticipants ++ [participant]
  else selectedParticipants.

Definition handleRemoveParticipant (selectedParticipants : list Participant)
    (id : string) : list Participant :=
  List.filter (λ p, negb (String.eqb (p_id p) id)) selectedParticipants.

(** The header's Reset button. *)
Definition handleReset (selectedParticipants : list Participant)
  : list Participant := [].

(** The events that change [selectedParticipants], and the lists reachable
    from the initial empty one. *)
Inductive RegistryEvent :=
  | Add (participant : Participant)
  | Remove (id : string)
  | Reset.

Definition registryStep (ps : list Participant) (e : RegistryEvent)
  : list Participant :=
  match e with
  | Add p => handleAddParticipant ps p
  | Remove id => handleRemoveParticipant ps id
  | Reset => handleReset ps
  end.

Definition registryRun (es : list RegistryEvent) : list Participant :=
  fold_left registryStep es [].

(** ** Date predicates of the component *)

Section Predicates.
Context `{hz : HostZone}.

(** State the predicates close over. *)
Variable countryCodes_ : list string.
Variable holidaysByCountry : gmap string (list HolidayRecord).

(** [holidaysByCountry[code] || []] *)
Definition holidaysOf (code : string) : list HolidayRecord :=
  default [] (holidaysByCountry !! code).

Definition isHoliday (date : Z) : bool :=
  let dstr := toISOString_slice date in
  forallb (λ code, existsb (λ h, String.eqb (h_date h) dstr) (holidaysOf code))
          countryCodes_.

Definition isWorkday (date : Z) : bool :=
  forallb (λ code,
             let dstr := toISOString_slice date in
             let isHol := existsb (λ h, String.eqb (h_date h) dstr) (holidaysOf code) in
             negb isHol && negb (isWeekend date))
          countryCodes_.

(** The check made on each filtered date before it is highlighted. *)
Definition isAllPublicHoliday (d : Z) : bool :=
  forallb (λ code,
             let dstr := moment_format d in
             existsb (λ h, String.eqb (h_date h) dstr && String.eqb (h_type h) "Public")
                     (holidaysOf code))
          countryCodes_.

(** The callback of [allDates.filter]; [filterType] is the string kept
    in the component's state. *)
Definition filterDate (filterType : string) (d : Z) : bool :=
  if String.eqb filterType "workday" then isWorkday d
  else if String.eqb filterType "weekend" then isWeekend d
  else if String.eqb filterType "holiday" then isHoliday d
  else false.

(** Whether a filtered date [d] gets an "All: ..." event. *)
Definition highlighted (filterType : string) (d : Z) : bool :=
  let isAllPublicHoliday_ :=
    if String.eqb filterType "holiday" then isAllPublicHoliday d else false in
  (String.eqb filterType "holiday" && isAllPublicHoliday_)
  || (String.eqb filterType "weekend" && isWeekend d)
  || (String.eqb filterType "workday" && isWorkday d).

End Predicates.

(** ** moment-timezone *)

(** The operations of moment-timezone the component uses.  A moment is a
    mutable object; every setter below returns the moment after the update,
    and [clone] is the identity on these values. *)
Class MomentTz := {
  Moment : Type;
  moment : Z → Moment;                    (* moment(date) *)
  m_tz : string → Moment → Moment;        (* .tz(name) *)
  m_set_hour : Z → Moment → Moment;       (* .hour(h) *)
  m_set_minute : Z → Moment → Moment;     (* .minute(mi) *)
  m_set_second : Z → Moment → Moment;     (* .second(s) *)
  m_hour : Moment → Z;                    (* .hour() *)
}.

Section AwakeHours.
Context `{mz : MomentTz}.

Variable selectedParticipants : list Participant.
Variables awakeStart awakeEnd : Z.

(** [moment(date).tz(tz).hour(h).minute(0).second(0)] *)
Definition slotStart (date : Z) (tz : string) (h : Z) : Moment :=
  m_set_second 0 (m_set_minute 0 (m_set_hour h (m_tz tz (moment date)))).

(** The callback of [selectedParticipants.every]. *)
Definition awakeAt (dt : Moment) (p : Participant) : bool :=
  let local := m_tz (split_space_0 (p_timezone p)) dt in
  let hour := m_hour local in
  (awakeStart <=? hour) && (hour <? awakeEnd).

(** The [for (let h = 0; h < 24; h++)] loop, entered with [24 - h]
    iterations left. *)
Fixpoint awakeLoop (left : nat) (h : Z) (date : Z) (tz : string)
    (hours : list Z) : list Z :=
  match left with
  | O => hours
  | S left' =>
      let dt := slotStart date tz h in
      let allAwake := forallb (awakeAt dt) selectedParticipants in
      awakeLoop left' (h + 1) date tz
                (if allAwake then hours ++ [h] else hours)
  end.

Definition getCommonAwakeHours (date : Z) (tz : string) : list Z :=
  awakeLoop 24 0 date tz [].

(** The progress bar of the time dialog computes, for hour [h]: *)
Definition progressBarAwake (selectedDate : Z) (calendarTz : string) (h : Z)
  : bool :=
  let dt := slotStart selectedDate calendarTz h in
  (0 <? Z.of_nat (length selectedParticipants))
  && forallb (awakeAt dt) selectedParticipants.

End AwakeHours.

(** *** A table of zones without clock changes

    Used to run the component on concrete inputs: a moment is an instant
    together with the offset (in minutes) of its current zone. *)

Record FixedMoment := mkMoment { instant : Z; offset : Z }.

Definition zoneOffset (name : string) : option Z :=
  if String.eqb name "UTC" then Some 0
  else if String.eqb name "Asia/Tokyo" then Some 540
  else if String.eqb name "Asia/Shanghai" then Some 480
  else if String.eqb name "Asia/Kolkata" then Some 330
  else if String.eqb name "Pacific/Kiritimati" then Some 840
  else if String.eqb name "America/Phoenix" then Some (-420)
  else None.

Definition localMs (m : FixedMoment) : Z := instant m + offset m * msPerMinute.

(** Replace the part of the local time selected by [unit_] / [range]. *)
Definition setField (unit_ range v : Z) (m : FixedMoment) : FixedMoment :=
  let l := localMs m in
  let old := (l / unit_) mod range in
  {| instant := instant m + (v - old) * unit_; offset := offset m |}.

(** moments created by [moment(date)] are in the host zone; here UTC.  An
    unknown zone name leaves the moment as it is. *)
#[export] Instance fixedZones : MomentTz := {|
  Moment := FixedMoment;
  moment := λ date, {| instant := date; offset := 0 |};
  m_tz := λ name m,
    match zoneOffset name with
    | Some o => {| instant := instant m; offset := o |}
    | None => m
    end;
  m_set_hour := setField msPerHour 24;
  m_set_minute := setField msPerMinute 60;
  m_set_second := setField msPerSecond 60;
  m_hour := λ m, HourFromTime (localMs m);
|}.

(** *** Zones with clock changes

    moment-timezone is a library the component imports; its zone data and
    its behaviour at a clock change are taken as parameters.  A moment is an
    instant, the zone it is read in ([None]: the host's zone, in which
    [moment(date)] starts) and the offset of that zone in force, in minutes
    east of UTC. *)

Record ZonedMoment := mkZoned {
  z_instant : Z;
  z_zone : option string;
  z_offset : Z;
}.

Section ZoneRules.

(** The offset of the host's zone at an instant; the offset of a named zone
    at an instant ([None] for a name the library has no data for); and what
    a setter returns when the local time asked for meets a clock change. *)
Variable hostRule : Z → Z.
Variable rule : string → Z → option Z.
Variable atChange : ZonedMoment → Z → Z → Z → ZonedMoment.

Definition ruleOf (zone : option string) (t : Z) : option Z :=
  match zone with
  | None => Some (hostRule t)
  | Some name => rule name t
  end.

Definition zonedLocal (m : ZonedMoment) : Z :=
  z_instant m + z_offset m * msPerMinute.

(** [.tz(name)]: the same instant, read in the named zone; a name without
    data leaves the moment as it is. *)
Definition zonedTz (name : string) (m : ZonedMoment) : ZonedMoment :=
  match rule name (z_instant m) with
  | Some o => {| z_instant := z_instant m; z_zone := Some name; z_offset := o |}
  | None => m
  end.

(** A setter replaces one field of the local time.  When the zone's offset
    at the instant so obtained is still the moment's offset, that instant is
    the result; otherwise the result is [atChange]'s. *)
Definition zonedSet (unit_ range v : Z) (m : ZonedMoment) : ZonedMoment :=
  let l := zonedLocal m in
  let old := (l / unit_) mod range in
  let t := z_instant m + (v - old) * unit_ in
  match ruleOf (z_zone m) t with
  | Some o =>
      if o =? z_offset m
      then {| z_instant := t; z_zone := z_zone m; z_offset := z_offset m |}
      else atChange m unit_ range v
  | None => atChange m unit_ range v
  end.

Definition zoneRules : MomentTz := {|
  Moment := ZonedMoment;
  moment := λ date,
    {| z_instant := date; z_zone := None; z_offset := hostRule date |};
  m_tz := zonedTz;
  m_set_hour := zonedSet msPerHour 24;
  m_set_minute := zonedSet msPerMinute 60;
  m_set_second := zonedSet msPerSecond 60;
  m_hour := λ m, HourFromTime (zonedLocal m);
|}.

End ZoneRules.

(** The moment of zone [tz], [od] minutes east of UTC, whose clock reads the
    local time value [l]. *)
Definition zonedAt (tz : string) (od l : Z) : ZonedMoment :=
  {| z_instant := l - od * msPerMinute; z_zone := Some tz; z_offset := od |}.

(** Following the specification's words: the instant at which the clock of
    a display timezone [displayOffset] minutes east of UTC reads [h]:00:00 on
    the calendar day with day number [day]. *)
Definition spec_slotInstant (displayOffset day h : Z) : Z :=
  MakeDate day (h * msPerHour) - displayOffset * msPerMinute.

(** ** The holiday fetch effect *)

(** The two refs the effect reads and writes. *)
Record FetchRefs := mkRefs {
  holidaysCache : gmap string (gmap Z (list HolidayRecord));
  lastFetchKey : string;
}.

Definition initialRefs : FetchRefs :=
  {| holidaysCache := ∅; lastFetchKey := "" |}.

Record CalendarRange := mkRange { start : option Z; end_ : option Z }.

(** [holidaysCache.current[code][year]], [None] when either level is
    missing. *)
Definition cached (cache : gmap string (gmap Z (list HolidayRecord)))
    (code : string) (year : Z) : option (list HolidayRecord) :=
  cache !! code ≫= λ byYear, byYear !! year.

(** [countryCodes.join(',') + '|' + years.join(',')] *)
Definition fetchKeyOf (codes : list string) (years : list Z) : string :=
  String.concat "," codes +:+ "|" +:+ String.concat "," (map pretty years).

(** A request [fetch(.../PublicHolidays/${year}/${code})]. *)
Definition Request : Type := Z * string.

(** The inner [years.forEach]: one request per year missing under [code]. *)
Definition yearsForEach (cache : gmap string (gmap Z (list HolidayRecord)))
    (code : string) (years : list Z) (fetchTasks : list Request) : list Request :=
  fold_left (λ tasks year,
               match cached cache code year with
               | None => tasks ++ [(year, code)]
               | Some _ => tasks
               end)
            years fetchTasks.

(** The outer [countryCodes.forEach]: the cache gets an empty object for a
    code it has none for, then the years are visited. *)
Definition codesForEach (codes : list string) (years : list Z)
    (cache : gmap string (gmap Z (list HolidayRecord)))
  : gmap string (gmap Z (list HolidayRecord)) * list Request :=
  fold_left (λ '(cache, tasks) code,
               let cache' :=
                 match cache !! code with
                 | None => <[code := ∅]> cache
                 | Some _ => cache
                 end in
               (cache', yearsForEach cache' code years tasks))
            codes (cache, []).

Section FetchEffect.
Context `{hz : HostZone}.

(** One run of the effect body, up to the point where the requests have
    been issued: the requests, in order, and the refs afterwards.  [None]
    only when [getYearsInRange] exhausts its budget. *)
Definition fetchEffect (fuel : nat) (calendarRange : CalendarRange)
    (codes : list string) (refs : FetchRefs)
  : option (list Request * FetchRefs) :=
  match start calendarRange, end_ calendarRange with
  | Some s, Some e =>
      if bool_decide (length codes = 0%nat) then Some ([], refs)
      else
        years ← getYearsInRange fuel (Some s) (Some e);
        let fetchKey := fetchKeyOf codes years in
        if String.eqb (lastFetchKey refs) fetchKey then Some ([], refs)
        else
          let '(cache', fetchTasks) := codesForEach codes years (holidaysCache refs) in
          Some (fetchTasks, {| holidaysCache := cache'; lastFetchKey := fetchKey |})
  | _, _ => Some ([], refs)
  end.

End FetchEffect.

(** A request settles: [holidaysCache.current[code][year] = data], with
    [data = []] when the request failed. *)
Definition settle (code : string) (year : Z) (data : list HolidayRecord)
    (refs : FetchRefs) : FetchRefs :=
  {| holidaysCache :=
       <[code := <[year := data]> (default ∅ (holidaysCache refs !! code))]>
         (holidaysCache refs);
     lastFetchKey := lastFetchKey refs |}.

Definition settleAll (settled : list (string * Z * list HolidayRecord))
    (refs : FetchRefs) : FetchRefs :=
  fold_left (λ r '(code, year, data), settle code year data r) settled refs.

(** After [Promise.all]: the per-country lists handed to
    [setHolidaysByCountry]. *)
Definition mergeByCountry (codes : list string) (years : list Z)
    (cache : gmap string (gmap Z (list HolidayRecord)))
  : gmap string (list HolidayRecord) :=
  fold_left (λ byCountry code,
               <[code := fold_left (λ acc year,
                                      match cached cache code year with
                                      | Some hs => acc ++ hs
                                      | None => acc
                                      end) years []]> byCountry)
            codes ∅.

(** ** The rest of the component *)

(** The effect that keeps the display timezone among the participants'
    (lines 96-100): [setCalendarTz(timezones[0])] when the current one is
    not in the list.  The result is the display timezone after the effect;
    [timezones[0]] is only read on a non-empty list. *)
Definition calendarTzEffect (timezones_ : list string) (calendarTz : string)
  : string :=
  if (0 <? length timezones_)%nat
     && negb (existsb (String.eqb calendarTz) timezones_)
  then default calendarTz (head timezones_)
  else calendarTz.

(** What [onRangeChange] of the calendar passes: an array of dates (week
    and day views), an object with [start] and [end], or something else. *)
Inductive RangeArg :=
  | RangeArray (dates : list Z)
  | RangeObject (start end_ : option Z)
  | RangeOther.

(** [handleRangeChange]: the calendar range after the call.  An index
    outside an array reads [undefined], here [None]. *)
Definition handleRangeChange (range : RangeArg) (calendarRange : CalendarRange)
  : CalendarRange :=
  match range with
  | RangeArray dates =>
      {| start := dates !! 0%nat; end_ := dates !! (length dates - 1)%nat |}
  | RangeObject (Some s) (Some e) => {| start := Some s; end_ := Some e |}
  | _ => calendarRange
  end.

Section RangeWalk.
Context `{hz : HostZone}.

Definition getMonth (d : Z) : Z := MonthFromTime (LocalTime d).

(** [new Date(year, month, date)]: local midnight of the given day; a year
    from 0 to 99 stands for 1900 + year. *)
Definition newDate (year month date : Z) : Z :=
  let yr := if (0 <=? year) && (year <=? 99) then 1900 + year else year in
  UTC (MakeDate (MakeDay yr month date) 0).

(** The effect that sets the range to the current month while an end of it
    is missing (lines 260-269); [today] is [new Date()]. *)
Definition initialRangeEffect (today : Z) (calendarRange : CalendarRange)
  : CalendarRange :=
  match start calendarRange, end_ calendarRange with
  | Some _, Some _ => calendarRange
  | _, _ =>
      let year := getFullYear today in
      let month := getMonth today in
      let startOfMonth := newDate year month 1 in
      let endOfMonth := newDate year (month + 1) 0 in
      {| start := Some startOfMonth; end_ := Some endOfMonth |}
  end.

(** The loop that fills [allDates] (lines 155-162), with the same budget
    convention as [yearsLoop]. *)
Fixpoint allDatesLoop (fuel : nat) (d : Z) (end_ : Z) (allDates : list Z)
  : option (list Z) :=
  match fuel with
  | O => None
  | S fuel' =>
      if d <=? end_
      then allDatesLoop fuel' (setDate d (getDate d + 1)) end_ (allDates ++ [d])
      else Some allDates
  end.

Definition allDates (fuel : nat) (calendarRange : CalendarRange)
  : option (list Z) :=
  match start calendarRange, end_ calendarRange with
  | Some s, Some e => allDatesLoop fuel s e []
  | _, _ => Some []
  end.

End RangeWalk.

(** An "All: ..." event of the calendar. *)
Record FilterEvent := mkFilterEvent {
  title : string;
  ev_start : Z;
  ev_end : Z;
  allDay : bool;
  resource_type : string;
  resource_filterType : string;
}.

Section FilterResults.
Context `{hz : HostZone}.
Variable countryCodes_ : list string.
Variable holidaysByCountry : gmap string (list HolidayRecord).
Variable filterType : string.

(** [allDates.filter(...)] (lines 184-189). *)
Definition filteredDates (allDates_ : list Z) : list Z :=
  List.filter (filterDate countryCodes_ holidaysByCountry filterType) allDates_.

(** The events pushed by [filteredDates.forEach] (lines 225-247). *)
Definition filterEvents (allDates_ : list Z) : list FilterEvent :=
  map (λ d,
         {| title := if String.eqb filterType "holiday" then "All: Holiday"
                     else if String.eqb filterType "weekend" then "All: Weekend"
                     else "All: Workday";
            ev_start := d; ev_end := d; allDay := true;
            resource_type := "filter"; resource_filterType := filterType |})
      (List.filter (highlighted countryCodes_ holidaysByCountry filterType)
                   (filteredDates allDates_)).

End FilterResults.

(** ** The map picker *)

(** JavaScript's [a || b] on values that are strings or missing: a missing
    or empty [a] gives [b]. *)
Definition js_or (a : option string) (b : option string) : option string :=
  match a with
  | Some s => if truthy s then Some s else b
  | None => b
  end.

(** A feature of [countries.geo.json], as far as the picker reads it. *)
Record Feature := mkFeature {
  geometry_type : option string;              (* [None]: no geometry *)
  prop_name : option string;
  prop_ADMIN : option string;
  prop_NAME : option string;
  prop_ISO_A2 : option string;                (* "ISO3166-1-Alpha-2" *)
}.

Record CountryObj := mkCountryObj { co_name : string; co_iso2 : string }.

Section CountryLookup.
(** [turf.booleanPointInPolygon(pt, feature)] for the clicked point. *)
Variable inPolygon : Feature → bool.

Definition isCandidate (feature : Feature) : bool :=
  match geometry_type feature with
  | Some t => (String.eqb t "Polygon" || String.eqb t "MultiPolygon")
              && inPolygon feature
  | None => false
  end.

Definition featureName (feature : Feature) : string :=
  default "Unknown"
    (js_or (js_or (js_or (prop_name feature) (prop_ADMIN feature))
                  (prop_NAME feature))
           (Some "Unknown")).

Fixpoint getCountryRegion (features : list Feature) : string :=
  match features with
  | [] => "Unknown"
  | feature :: rest =>
      if isCandidate feature then featureName feature
      else getCountryRegion rest
  end.

Fixpoint getCountryRegionWithISO (features : list Feature) : CountryObj :=
  match features with
  | [] => {| co_name := "Unknown"; co_iso2 := "" |}
  | feature :: rest =>
      if isCandidate feature
      then {| co_name := featureName feature;
              co_iso2 := default "" (js_or (prop_ISO_A2 feature) (Some "")) |}
      else getCountryRegionWithISO rest
  end.

(** The participant built by the click handler.  [lat] and [lng] are the
    renderings of the coordinates, [timezone] the result of [getTimezone]
    ([None] for [null]) and [time] the formatted current time. *)
Definition clickParticipant (features : list Feature) (lat lng : string)
    (timezone : option string) (time : string) : Participant :=
  let countryObj := getCountryRegionWithISO features in
  let tz := default "UTC" (js_or timezone (Some "UTC")) in
  let warning :=
    match js_or timezone None with
    | None => " (Timezone could not be detected, using UTC)"
    | Some _ => ""
    end in
  {| p_id := lat +:+ "," +:+ lng;
     p_name := co_name countryObj;
     p_iso2 := co_iso2 countryObj;
     p_timezone := tz +:+ warning;
     p_time := time |}.

End CountryLookup.

(** No character of [s] is a space. *)
Fixpoint noSpace (s : string) : bool :=
  match s with
  | EmptyString => true
  | String c rest => negb (Ascii.eqb c " "%char) && noSpace rest
  end.

(** ** Months as intervals of day numbers

    Auxiliary quantities for reasoning about [civil_from_days]: years are
    counted from 1 March ([marchDay y] is the day number of 1 March of year
    [y]), months by their index [mp] from March (0) to February (11), and
    [monthStart mp] is the offset of the month's first day in such a year. *)
Definition yearStart (y : Z) : Z := 365 * y + y / 4 - y / 100.
Definition marchDay (y : Z) : Z := 365 * y + y / 4 - y / 100 + y / 400 - 719468.
Definition monthStart (mp : Z) : Z := (153 * mp + 2) / 5.
Definition civilOf (y' mp d : Z) : Z * Z * Z :=
  (if mp <? 10 then y' else y' + 1, if mp <? 10 then mp + 3 else mp - 9, d).

(** ** Sample data *)

Definition tokyo : Participant :=
  mkParticipant "35.68,139.69" "Japan" "JP" "Asia/Tokyo" "09:00, Fri".
Definition phoenix : Participant :=
  mkParticipant "33.45,-112.07" "United States of America" "US"
                "America/Phoenix" "17:00, Thu".
Definition oceanClick : Participant :=
  mkParticipant "0,0" "Unknown" ""
                "UTC (Timezone could not be detected, using UTC)" "00:00, Fri".

Definition independenceDay (type : string) : HolidayRecord :=
  mkHoliday "2024-07-04" "Independence Day" "Independence Day" "US" type.

Definition usOnly (type : string) : gmap string (list HolidayRecord) :=
  {[ "US" := [independenceDay type] ]}.



Definition t_2024_01_05_noon : Z := 1704456000000.   (* Friday, 12:00 UTC *)
Definition t_2024_07_04 : Z := 1720051200000.        (* Thursday, 00:00 UTC *)
Definition t_2024_12_30 : Z := 1735516800000.        (* 00:00 UTC *)
Definition t_2024_12_31_noon : Z := 1735646400000.   (* 12:00 UTC *)
Definition t_2025_01_01 : Z := 1735689600000.        (* 00:00 UTC *)

(** The day of the week of an instant in a zone of the table, as the
    display-timezone reading of a date would have it. *)
Definition spec_weekDayIn (tz : string) (date : Z) : option Z :=
  o ← zoneOffset tz; Some (WeekDay (date + o * msPerMinute)).

(** The number of iterations of the [getYearsInRange] loop from [d] to [e]
    when each step advances by one day. *)
Definition steps (d e : Z) : nat := Z.to_nat ((e - d) / msPerDay + 1).

(** Country [code] has a cached record dated [dstr]; and one of type
    "Public". *)
Definition hasRecordOn (holidaysByCountry : gmap string (list HolidayRecord))
    (code dstr : string) : Prop :=
  ∃ h, h ∈ holidaysOf holidaysByCountry code ∧ h_date h = dstr.

Definition hasPublicRecordOn (holidaysByCountry : gmap string (list HolidayRecord))
    (code dstr : string) : Prop :=
  ∃ h, h ∈ holidaysOf holidaysByCountry code
       ∧ h_date h = dstr ∧ h_type h = "Public"%string.

(** * Properties *)

(** ** The calendar *)

Section CalendarFacts.

Lemma day_of_era_bounds doe :
  0 <= doe < 146097 →
  let yoe := (doe - doe / 1460 + doe / 36524 - doe / 146096) / 365 in
  let doy := doe - (365 * yoe + yoe / 4 - yoe / 100) in
  0 <= yoe < 400 ∧ 0 <= doy < 366.
Proof.
  intros Hd yoe doy. subst doy yoe.
  Z.to_euclidean_division_equations; lia.
Qed.

Lemma civil_from_days_month z : 1 <= (civil_from_days z).1.2 <= 12.
Proof.
  unfold civil_from_days. cbv zeta.
  set (zz := z + 719468). set (era := zz / 146097).
  set (doe := zz - era * 146097).
  assert (Hdoe : 0 <= doe < 146097).
  { subst doe era. Z.to_euclidean_division_equations; lia. }
  destruct (day_of_era_bounds doe Hdoe) as [Hy Hdoy]. cbv zeta in Hy, Hdoy.
  set (yoe := (doe - doe / 1460 + doe / 36524 - doe / 146096) / 365) in *.
  set (doy := doe - (365 * yoe + yoe / 4 - yoe / 100)) in *.
  set (mp := (5 * doy + 2) / 153).
  assert (0 <= mp <= 11) by (subst mp; Z.to_euclidean_division_equations; lia).
  simpl. destruct (Z.ltb_spec mp 10); lia.
Qed.

(** The two conversions are inverse on day numbers. *)
Lemma days_from_civil_from_days z :
  let '(y, m, d) := civil_from_days z in days_from_civil y m d = z.
Proof.
  unfold civil_from_days. cbv zeta.
  set (zz := z + 719468). set (era := zz / 146097).
  set (doe := zz - era * 146097).
  assert (Hdoe : 0 <= doe < 146097).
  { subst doe era. Z.to_euclidean_division_equations; lia. }
  destruct (day_of_era_bounds doe Hdoe) as [Hy Hdoy]. cbv zeta in Hy, Hdoy.
  set (yoe := (doe - doe / 1460 + doe / 36524 - doe / 146096) / 365) in *.
  set (doy := doe - (365 * yoe + yoe / 4 - yoe / 100)) in *.
  set (mp := (5 * doy + 2) / 153).
  assert (Hmp : 0 <= mp <= 11)
    by (subst mp; Z.to_euclidean_division_equations; lia).
  unfold days_from_civil.
  set (m := if mp <? 10 then mp + 3 else mp - 9).
  assert (Hm : (m <=? 2) = negb (mp <? 10)).
  { subst m. destruct (Z.ltb_spec mp 10); simpl;
      [apply Z.leb_gt | apply Z.leb_le]; lia. }
  rewrite Hm.
  assert (Hmp' : (if 2 <? m then m - 3 else m + 9) = mp).
  { subst m. destruct (Z.ltb_spec mp 10).
    - destruct (Z.ltb_spec 2 (mp + 3)); lia.
    - destruct (Z.ltb_spec 2 (mp - 9)); lia. }
  rewrite Hmp'.
  set (y := yoe + era * 400).
  assert (Hy' : (if negb (mp <? 10)
                 then (if negb (mp <? 10) then y + 1 else y) - 1
                 else (if negb (mp <? 10) then y + 1 else y)) = y).
  { destruct (mp <? 10); simpl; lia. }
  rewrite Hy'.
  assert (Hera : y / 400 = era).
  { subst y. Z.to_euclidean_division_equations; lia. }
  rewrite Hera.
  replace (y - era * 400) with yoe by (subst y; lia).
  subst doy doe zz. lia.
Qed.

Lemma days_from_civil_day y m d :
  days_from_civil y m d = days_from_civil y m 1 + d - 1.
Proof. unfold days_from_civil. lia. Qed.

(** Setting the day of the month to one more than it is lands on the next
    day number, also across the end of a month or a year. *)
Lemma MakeDay_next t :
  MakeDay (YearFromTime t) (MonthFromTime t) (DateFromTime t + 1) = Day t + 1.
Proof.
  unfold MakeDay, YearFromTime, MonthFromTime, DateFromTime.
  pose proof (civil_from_days_month (Day t)) as Hm.
  pose proof (days_from_civil_from_days (Day t)) as Hrt.
  destruct (civil_from_days (Day t)) as [[y m] d]. simpl in *.
  rewrite (days_from_civil_day y m d) in Hrt.
  replace ((m - 1) / 12) with 0 by (Z.to_euclidean_division_equations; lia).
  replace ((m - 1) mod 12 + 1) with m by (Z.to_euclidean_division_equations; lia).
  rewrite Z.add_0_r. lia.
Qed.

Lemma MakeDate_Day_TimeWithinDay t : MakeDate (Day t) (TimeWithinDay t) = t.
Proof.
  unfold MakeDate, Day, TimeWithinDay, msPerDay.
  Z.to_euclidean_division_equations; lia.
Qed.

Lemma Day_add_days t k : Day (t + k * msPerDay) = Day t + k.
Proof. unfold Day, msPerDay. apply Z.div_add. lia. Qed.

Lemma TimeWithinDay_add_days t k :
  TimeWithinDay (t + k * msPerDay) = TimeWithinDay t.
Proof. unfold TimeWithinDay, msPerDay. apply Z.mod_add. lia. Qed.

End CalendarFacts.

(** ** [getYearsInRange] *)

Section YearsLoopFacts.
Context `{hz : HostZone}.

Lemma elem_of_set_add y x years : y ∈ set_add x years ↔ y = x ∨ y ∈ years.
Proof.
  unfold set_add. case_bool_decide as Hx.
  - split; [auto | intros [-> | ?]; auto].
  - rewrite elem_of_app, list_elem_of_singleton. tauto.
Qed.

Lemma set_add_NoDup x years : NoDup years → NoDup (set_add x years).
Proof.
  intros Hnd. unfold set_add. case_bool_decide as Hx; [done |].
  apply NoDup_app. split; [done |]. split.
  - intros z Hz Hz'. apply list_elem_of_singleton in Hz'. by subst.
  - apply NoDup_singleton.
Qed.

(** A larger budget does not change a result already obtained. *)
Lemma yearsLoop_more_fuel fuel fuel' d e years r :
  yearsLoop fuel d e years = Some r → (fuel <= fuel')%nat →
  yearsLoop fuel' d e years = Some r.
Proof.
  revert fuel' d years. induction fuel as [| fuel IH]; intros fuel' d years;
    [done |].
  intros Hrun Hle. destruct fuel' as [| fuel']; [lia |].
  simpl in *. destruct (d <=? e); [| done].
  apply IH; [done | lia].
Qed.

Lemma yearsLoop_deterministic fuel fuel' d e years r r' :
  yearsLoop fuel d e years = Some r → yearsLoop fuel' d e years = Some r' →
  r = r'.
Proof.
  intros Hr Hr'.
  apply (yearsLoop_more_fuel _ (fuel `max` fuel')%nat) in Hr; [| lia].
  apply (yearsLoop_more_fuel _ (fuel `max` fuel')%nat) in Hr'; [| lia].
  congruence.
Qed.

Lemma getYearsInRange_deterministic fuel fuel' s e r r' :
  getYearsInRange fuel s e = Some r → getYearsInRange fuel' s e = Some r' →
  r = r'.
Proof.
  destruct s as [s |], e as [e |]; simpl; try congruence.
  apply yearsLoop_deterministic.
Qed.

Lemma yearsLoop_NoDup fuel d e years r :
  NoDup years → yearsLoop fuel d e years = Some r → NoDup r.
Proof.
  revert d years. induction fuel as [| fuel IH]; intros d years Hnd; [done |].
  simpl. destruct (d <=? e); [| by intros [= <-]].
  apply IH. by apply set_add_NoDup.
Qed.

End YearsLoopFacts.

(** On a host without clock changes the day-by-day walk advances by exactly
    one day, so the loop ends and visits [d], [d + 1 day], ... up to [e]. *)
Section FixedHostFacts.
Variable offsetMs : Z.
Local Abbreviation fixed := (fixedHost offsetMs).

Lemma setDate_next_day d :
  setDate (hz := fixed) d (getDate (hz := fixed) d + 1) = d + msPerDay.
Proof.
  unfold setDate, getDate, UTC, LocalTime, LocalTZA, fixedHost.
  rewrite MakeDay_next. unfold MakeDate.
  pose proof (MakeDate_Day_TimeWithinDay (d + offsetMs)) as Hd.
  unfold MakeDate in Hd. lia.
Qed.

Lemma steps_next d e : d <= e → steps d e = S (steps (d + msPerDay) e).
Proof.
  intros Hle. unfold steps.
  replace (e - (d + msPerDay)) with ((e - d) + (-1) * msPerDay) by lia.
  rewrite Z.div_add by (unfold msPerDay; lia).
  assert (0 <= (e - d) / msPerDay) by (apply Z.div_pos; unfold msPerDay; lia).
  lia.
Qed.

Lemma yearsLoop_fixed_host fuel d e years :
  (steps d e < fuel)%nat →
  ∃ r, yearsLoop (hz := fixed) fuel d e years = Some r
       ∧ ∀ y, y ∈ r ↔
              y ∈ years
              ∨ ∃ k, 0 <= k ∧ d + k * msPerDay <= e
                     ∧ y = getFullYear (hz := fixed) (d + k * msPerDay).
Proof.
  revert d years. induction fuel as [| fuel IH]; intros d years Hfuel; [lia |].
  simpl. destruct (Z.leb_spec d e) as [Hle | Hgt].
  - rewrite setDate_next_day.
    rewrite (steps_next d e Hle) in Hfuel.
    destruct (IH (d + msPerDay) (set_add (getFullYear (hz := fixed) d) years))
      as (r & Hr & Hin);
      [lia |].
    exists r. split; [done |]. intros y. rewrite Hin, elem_of_set_add.
    split.
    + intros [[-> | Hy] | (k & Hk & Hke & ->)].
      * right. exists 0. split; [lia |]. split; [lia |]. f_equal. lia.
      * by left.
      * right. exists (k + 1). split; [lia |]. split; [lia |]. f_equal. lia.
    + intros [Hy | (k & Hk & Hke & ->)]; [by left; right |].
      destruct (decide (k = 0)) as [-> | Hk0].
      * left. left. f_equal. lia.
      * right. exists (k - 1). split; [lia |]. split; [lia |]. f_equal. lia.
  - exists years. split; [done |]. intros y. split; [by left |].
    intros [Hy | (k & Hk & Hke & _)]; [done |].
    unfold msPerDay in *. lia.
Qed.

(** [getYearsInRange] returns on every pair of dates, and the years it
    returns are those of the instants [start + k days] not after [end]. *)
Lemma getYearsInRange_fixed_host s e :
  ∃ r, getYearsInRange (hz := fixed) (S (steps s e)) (Some s) (Some e) = Some r
       ∧ NoDup r
       ∧ ∀ y, y ∈ r ↔ ∃ k, 0 <= k ∧ s + k * msPerDay <= e
                            ∧ y = getFullYear (hz := fixed) (s + k * msPerDay).
Proof.
  destruct (yearsLoop_fixed_host (S (steps s e)) s e []) as (r & Hr & Hin);
    [lia |].
  exists r. split; [done |]. split.
  - eapply yearsLoop_NoDup; [| exact Hr]. apply NoDup_nil_2.
  - intros y. rewrite Hin. split; [| by right].
    intros [Hy | Hk]; [| done]. by apply elem_of_nil in Hy.
Qed.

(** When the end's time of day is not before the start's, the walk reaches
    the end's calendar day, and the end's year is among the result. *)
Lemma getYearsInRange_contains_end_year s e r fuel :
  s <= e →
  TimeWithinDay (LocalTime (hz := fixed) s)
  <= TimeWithinDay (LocalTime (hz := fixed) e) →
  getYearsInRange (hz := fixed) fuel (Some s) (Some e) = Some r →
  getFullYear (hz := fixed) e ∈ r.
Proof.
  intros Hse Htod Hrun.
  destruct (getYearsInRange_fixed_host s e) as (r' & Hr' & _ & Hin).
  rewrite (getYearsInRange_deterministic _ _ _ _ _ _ Hrun Hr').
  apply Hin.
  unfold LocalTime, LocalTZA, fixedHost in Htod.
  set (k := Day (e + offsetMs) - Day (s + offsetMs)).
  pose proof (MakeDate_Day_TimeWithinDay (s + offsetMs)) as Hs.
  pose proof (MakeDate_Day_TimeWithinDay (e + offsetMs)) as He.
  unfold MakeDate in Hs, He.
  assert (Hk : 0 <= k).
  { subst k. unfold Day, msPerDay.
    assert ((s + offsetMs) / 86400000 <= (e + offsetMs) / 86400000)
      by (apply Z.div_le_mono; lia).
    lia. }
  exists k. split; [done |]. split.
  - unfold msPerDay in *. nia.
  - unfold getFullYear, YearFromTime, LocalTime, LocalTZA, fixedHost.
    replace (s + k * msPerDay + offsetMs) with (s + offsetMs + k * msPerDay) by lia.
    rewrite Day_add_days. subst k. do 3 f_equal. lia.
Qed.

End FixedHostFacts.

(** ** Date predicates *)

Section PredicateFacts.
Context `{hz : HostZone}.
Implicit Types (codes : list string) (hbc : gmap string (list HolidayRecord)).

Lemma existsb_date hbc code dstr :
  existsb (λ h, String.eqb (h_date h) dstr) (holidaysOf hbc code) = true
  ↔ hasRecordOn hbc code dstr.
Proof.
  rewrite existsb_exists. unfold hasRecordOn.
  split; intros (h & Hin & Hd); exists h.
  - apply list_elem_of_In in Hin. by apply String.eqb_eq in Hd.
  - apply list_elem_of_In in Hin. by apply String.eqb_eq in Hd.
Qed.

Lemma existsb_date_public hbc code dstr :
  existsb (λ h, String.eqb (h_date h) dstr && String.eqb (h_type h) "Public")
          (holidaysOf hbc code) = true
  ↔ hasPublicRecordOn hbc code dstr.
Proof.
  rewrite existsb_exists. unfold hasPublicRecordOn.
  split.
  - intros (h & Hin & Hd). apply andb_true_iff in Hd as [Hd Ht].
    exists h. apply list_elem_of_In in Hin.
    by apply String.eqb_eq in Hd, Ht.
  - intros (h & Hin & Hd & Ht). exists h. apply list_elem_of_In in Hin.
    split; [done |]. apply andb_true_iff. by rewrite !String.eqb_eq.
Qed.

Lemma forallb_elem_of {A} (f : A → bool) (l : list A) :
  forallb f l = true ↔ ∀ x, x ∈ l → f x = true.
Proof.
  rewrite forallb_forall. by setoid_rewrite list_elem_of_In.
Qed.

Lemma isHoliday_spec codes hbc date :
  isHoliday codes hbc date = true
  ↔ ∀ code, code ∈ codes → hasRecordOn hbc code (toISOString_slice date).
Proof.
  unfold isHoliday. rewrite forallb_elem_of.
  by setoid_rewrite existsb_date.
Qed.

Lemma isAllPublicHoliday_spec codes hbc d :
  isAllPublicHoliday codes hbc d = true
  ↔ ∀ code, code ∈ codes → hasPublicRecordOn hbc code (moment_format d).
Proof.
  unfold isAllPublicHoliday. rewrite forallb_elem_of.
  by setoid_rewrite existsb_date_public.
Qed.


Lemma getDay_range date : 0 <= getDay date <= 6.
Proof.
  unfold getDay, WeekDay. pose proof (Z.mod_pos_bound (Day (LocalTime date) + 4) 7).
  lia.
Qed.

End PredicateFacts.

(** *** No country codes *)

(** C1, as stated, fails: with no country codes, [isHoliday] answers [true]
    (here for 4 July 2024 and an empty holiday table), not [false]. *)
Lemma isHoliday_no_codes_not_false : isHoliday [] ∅ t_2024_07_04 ≠ false.
Proof. vm_compute. discriminate. Qed.

(** C1 (amended): with an empty list of country codes the component makes no
    special case; [Array.prototype.every] over no codes holds, so for every
    date and every holiday table [isHoliday] and [isAllPublicHoliday] are
    true, the date passes the "holiday" filter and is highlighted. *)
Theorem isHoliday_no_codes `{hz : HostZone}
    (hbc : gmap string (list HolidayRecord)) (date : Z) :
  isHoliday [] hbc date = true
  ∧ isAllPublicHoliday [] hbc date = true
  ∧ filterDate [] hbc "holiday" date = true
  ∧ highlighted [] hbc "holiday" date = true.
Proof. repeat split. Qed.

(** *** Group holidays on a host east of UTC *)

(** C2: the code misses the claim on a host eight hours east of UTC.  The
    calendar cell of 4 July 2024 is the host's midnight, [d4].  The only
    country code, "US" (one participant, in Phoenix), has a cached record
    dated 2024-07-04 of type "Public", so every country code has a "Public"
    record on the date ([moment_format d4] is "2024-07-04", and
    [isAllPublicHoliday] holds), but [isHoliday] compares
    [toISOString_slice d4], which is "2024-07-03", and fails: no
    "All: Holiday" event is made for the date.  The next cell, [d5], has the
    UTC form "2024-07-04", on which every country code has a "Public" record
    too, and passes [isHoliday], but [isAllPublicHoliday] compares
    "2024-07-05": no event either.  On a host in UTC the same table gives the
    event for 4 July. *)
Theorem group_holiday_missed_east_of_utc :
  let host := fixedHost (8 * msPerHour) in
  let d4 := t_2024_07_04 - 8 * msPerHour in
  let d5 := d4 + msPerDay in
  countryCodes [phoenix] = ["US"%string]
  ∧ moment_format (hz := host) d4 = "2024-07-04"%string
  ∧ (∀ code, code ∈ ["US"%string] →
             hasPublicRecordOn (usOnly "Public") code (moment_format (hz := host) d4))
  ∧ isAllPublicHoliday (hz := host) ["US"%string] (usOnly "Public") d4 = true
  ∧ toISOString_slice d4 = "2024-07-03"%string
  ∧ isHoliday ["US"%string] (usOnly "Public") d4 = false
  ∧ filterEvents (hz := host) ["US"%string] (usOnly "Public") "holiday" [d4] = []
  ∧ toISOString_slice d5 = "2024-07-04"%string
  ∧ (∀ code, code ∈ ["US"%string] →
             hasPublicRecordOn (usOnly "Public") code (toISOString_slice d5))
  ∧ isHoliday ["US"%string] (usOnly "Public") d5 = true
  ∧ isAllPublicHoliday (hz := host) ["US"%string] (usOnly "Public") d5 = false
  ∧ filterEvents (hz := host) ["US"%string] (usOnly "Public") "holiday" [d5] = []
  ∧ filterEvents (hz := utcHost) ["US"%string] (usOnly "Public") "holiday"
                 [t_2024_07_04]
    ≠ [].
Proof.
  cbv zeta.
  assert (Hrec : ∀ dstr, dstr = "2024-07-04"%string →
                 ∀ code, code ∈ ["US"%string] →
                         hasPublicRecordOn (usOnly "Public") code dstr).
  { intros dstr -> code Hin. apply list_elem_of_singleton in Hin. subst code.
    exists (independenceDay "Public").
    assert (Hof : holidaysOf (usOnly "Public") "US" = [independenceDay "Public"])
      by (vm_compute; reflexivity).
    rewrite Hof. split; [apply list_elem_of_here |]. split; reflexivity. }
  assert (H4 : moment_format (hz := fixedHost (8 * msPerHour))
                             (t_2024_07_04 - 8 * msPerHour) = "2024-07-04"%string)
    by (vm_compute; reflexivity).
  assert (H5 : toISOString_slice (t_2024_07_04 - 8 * msPerHour + msPerDay)
               = "2024-07-04"%string) by (vm_compute; reflexivity).
  split; [vm_compute; reflexivity |].
  split; [exact H4 |].
  split; [exact (Hrec _ H4) |].
  split; [vm_compute; reflexivity |].
  split; [vm_compute; reflexivity |].
  split; [vm_compute; reflexivity |].
  split; [vm_compute; reflexivity |].
  split; [exact H5 |].
  split; [exact (Hrec _ H5) |].
  split; [vm_compute; reflexivity |].
  split; [vm_compute; reflexivity |].
  split; [vm_compute; reflexivity |].
  intros Hnil. vm_compute in Hnil. discriminate Hnil.
Qed.

(** *** Workdays *)




(** *** Weekends *)

(** C6, as stated, fails: on a host in UTC, Friday 5 January 2024 12:00 UTC
    is already Saturday in the display timezone Pacific/Kiritimati, and
    [isWeekend] is false. *)
Lemma isWeekend_not_display_timezone :
  ¬ (isWeekend (hz := utcHost) t_2024_01_05_noon = true
     ↔ spec_weekDayIn "Pacific/Kiritimati" t_2024_01_05_noon = Some 6
       ∨ spec_weekDayIn "Pacific/Kiritimati" t_2024_01_05_noon = Some 0).
Proof.
  intros [_ Hclaim].
  assert (Hsat : spec_weekDayIn "Pacific/Kiritimati" t_2024_01_05_noon = Some 6)
    by (vm_compute; reflexivity).
  specialize (Hclaim (or_introl Hsat)). vm_compute in Hclaim.
  discriminate Hclaim.
Qed.

(** C6 (amended): [isWeekend] does not take the display timezone; for every
    date it is true exactly when [Date.prototype.getDay], the day of the
    week in the host environment's local time zone, is Saturday (6) or
    Sunday (0), that is when the local day number is 2 or 3 modulo 7. *)
Theorem isWeekend_host_zone `{hz : HostZone} (date : Z) :
  (isWeekend date = true ↔ getDay date = 6 ∨ getDay date = 0)
  ∧ (isWeekend date = true
     ↔ Day (date + LocalTZA date true) mod 7 = 2
       ∨ Day (date + LocalTZA date true) mod 7 = 3).
Proof.
  assert (Hiff : isWeekend date = true ↔ getDay date = 6 ∨ getDay date = 0).
  { unfold isWeekend. cbv zeta. rewrite orb_true_iff, !Z.eqb_eq. tauto. }
  split; [done |]. rewrite Hiff. unfold getDay, WeekDay, LocalTime.
  generalize (Day (date + LocalTZA date true)). intros n.
  Z.to_euclidean_division_equations; lia.
Qed.

(** ** Common awake hours *)

Section AwakeFacts.
Context `{mz : MomentTz}.
Variable selectedParticipants : list Participant.
Variables awakeStart awakeEnd : Z.
Variables (date : Z) (tz : string).

(** The hour of day of participant [p] at the start of slot [h]. *)
Local Abbreviation localHour p h :=
  (m_hour (m_tz (split_space_0 (p_timezone p)) (slotStart date tz h))).

Local Abbreviation allAwake h :=
  (forallb (awakeAt awakeStart awakeEnd (slotStart date tz h))
           selectedParticipants).

Lemma allAwake_spec h :
  allAwake h = true
  ↔ ∀ p, p ∈ selectedParticipants →
         awakeStart <= localHour p h ∧ localHour p h < awakeEnd.
Proof.
  rewrite forallb_elem_of. unfold awakeAt.
  split; intros Hall p Hin; specialize (Hall p Hin); cbv zeta in *.
  - apply andb_true_iff in Hall as [Hs He].
    apply Z.leb_le in Hs. apply Z.ltb_lt in He. done.
  - destruct Hall as [Hs He]. apply andb_true_iff.
    split; [by apply Z.leb_le | by apply Z.ltb_lt].
Qed.

(** What the loop adds to [hours] when entered at hour [h] with [left]
    iterations to go. *)
Lemma awakeLoop_elem_of left h hours k :
  k ∈ awakeLoop selectedParticipants awakeStart awakeEnd left h date tz hours
  ↔ k ∈ hours ∨ (h <= k < h + Z.of_nat left ∧ allAwake k = true).
Proof.
  revert h hours. induction left as [| left IH]; intros h hours.
  - simpl. split; [by left | intros [? | [? _]]; [done | lia]].
  - cbn [awakeLoop]. cbv zeta. rewrite IH.
    destruct (allAwake h) eqn:Hh.
    + rewrite elem_of_app, list_elem_of_singleton. split.
      * intros [[Hk | ->] | [Hk Ha]]; [by left | right | right]; split;
          (lia || done).
      * intros [Hk | [Hk Ha]]; [by left; left |].
        destruct (decide (k = h)) as [-> | Hne]; [by left; right |].
        right. split; [lia | done].
    + split.
      * intros [Hk | [Hk Ha]]; [by left | right]. split; [lia | done].
      * intros [Hk | [Hk Ha]]; [by left |].
        destruct (decide (k = h)) as [-> | Hne]; [congruence |].
        right. split; [lia | done].
Qed.

Lemma awakeLoop_sorted left h hours :
  StronglySorted Z.lt hours → (∀ k, k ∈ hours → k < h) →
  StronglySorted Z.lt
    (awakeLoop selectedParticipants awakeStart awakeEnd left h date tz hours).
Proof.
  revert h hours. induction left as [| left IH]; intros h hours Hs Hlt; [done |].
  cbn [awakeLoop]. cbv zeta. apply IH.
  - destruct (allAwake h); [| done].
    apply StronglySorted_app_2; [| done | repeat constructor].
    intros x1 x2 Hx1 Hx2. apply list_elem_of_singleton in Hx2 as ->. by apply Hlt.
  - intros k Hk. destruct (allAwake h).
    + apply elem_of_app in Hk as [Hk | Hk].
      * specialize (Hlt k Hk). lia.
      * apply list_elem_of_singleton in Hk as ->. lia.
    + specialize (Hlt k Hk). lia.
Qed.

Lemma getCommonAwakeHours_elem_of h :
  h ∈ getCommonAwakeHours selectedParticipants awakeStart awakeEnd date tz
  ↔ 0 <= h < 24 ∧ allAwake h = true.
Proof.
  unfold getCommonAwakeHours. rewrite awakeLoop_elem_of. split.
  - intros [Hin | [Hr Ha]]; [by apply elem_of_nil in Hin |]. split; [lia | done].
  - intros [Hr Ha]. right. split; [lia | done].
Qed.

End AwakeFacts.

(** C3: the code returns all 24 hours when there are no participants.  For
    every date, display timezone and awake window, [getCommonAwakeHours] on
    an empty participant list is [0; 1; ...; 23], while the progress bar of
    the same dialog, which guards its test with
    [selectedParticipants.length > 0], marks no hour. *)
Theorem getCommonAwakeHours_no_participants `{mz : MomentTz}
    (awakeStart awakeEnd date : Z) (tz : string) :
  getCommonAwakeHours [] awakeStart awakeEnd date tz = seqZ 0 24
  ∧ ∀ h, progressBarAwake [] awakeStart awakeEnd date tz h = false.
Proof. split; reflexivity. Qed.

(** What the loop computes, whatever the moment library: a strictly
    increasing list of hours between 0 and 23, with [h] in it exactly when
    every participant's hour of day, read in the participant's zone at the
    moment [slotStart date tz h], lies in the awake window. *)
Lemma getCommonAwakeHours_loop_spec `{mz : MomentTz}
    (selectedParticipants : list Participant) (awakeStart awakeEnd date : Z)
    (tz : string) :
  let hours := getCommonAwakeHours selectedParticipants awakeStart awakeEnd date tz in
  StronglySorted Z.lt hours
  ∧ (∀ h, h ∈ hours → 0 <= h <= 23)
  ∧ ∀ h, h ∈ hours
         ↔ 0 <= h < 24
           ∧ ∀ p, p ∈ selectedParticipants →
                  let hour := m_hour (m_tz (split_space_0 (p_timezone p))
                                           (slotStart date tz h)) in
                  awakeStart <= hour ∧ hour < awakeEnd.
Proof.
  intros hours. subst hours. split; [| split].
  - unfold getCommonAwakeHours. apply awakeLoop_sorted; [constructor |].
    intros k Hk. by apply elem_of_nil in Hk.
  - intros h Hh. apply getCommonAwakeHours_elem_of in Hh as [Hh _]. lia.
  - intros h. rewrite getCommonAwakeHours_elem_of, allAwake_spec. reflexivity.
Qed.

(** *** The day of the slots *)

Lemma zonedSet_kept hostRule rule atChange unit_ range v m :
  ruleOf hostRule rule (z_zone m)
         (z_instant m + (v - (zonedLocal m / unit_) mod range) * unit_)
  = Some (z_offset m) →
  zonedSet hostRule rule atChange unit_ range v m
  = {| z_instant := z_instant m + (v - (zonedLocal m / unit_) mod range) * unit_;
       z_zone := z_zone m; z_offset := z_offset m |}.
Proof.
  intros Hrule. unfold zonedSet. cbv zeta. rewrite Hrule.
  by rewrite Z.eqb_refl.
Qed.

(** Replacing the hour, the minute or the second of a local time value
    stays within its day. *)
Lemma set_hour_local l h :
  0 <= h < 24 →
  let l1 := l + (h - (l / msPerHour) mod 24) * msPerHour in
  Day l1 = Day l ∧ l1 = Day l * msPerDay + h * msPerHour + l mod msPerHour.
Proof.
  intros Hh l1. subst l1. unfold Day, msPerDay, msPerHour.
  Z.to_euclidean_division_equations; lia.
Qed.

Lemma set_minute_local d h l :
  0 <= h < 24 → 0 <= l < msPerHour →
  let l1 := d * msPerDay + h * msPerHour + l in
  let l2 := l1 + (0 - (l1 / msPerMinute) mod 60) * msPerMinute in
  Day l2 = d ∧ l2 = d * msPerDay + h * msPerHour + l mod msPerMinute.
Proof.
  intros Hh Hl l1 l2. subst l2 l1.
  unfold Day, msPerDay, msPerHour, msPerMinute in *.
  Z.to_euclidean_division_equations; lia.
Qed.

Lemma set_second_local d h l :
  0 <= h < 24 → 0 <= l < msPerMinute →
  let l1 := d * msPerDay + h * msPerHour + l in
  let l2 := l1 + (0 - (l1 / msPerSecond) mod 60) * msPerSecond in
  Day l2 = d ∧ l2 = d * msPerDay + h * msPerHour + l mod msPerSecond.
Proof.
  intros Hh Hl l1 l2. subst l2 l1.
  unfold Day, msPerDay, msPerHour, msPerMinute, msPerSecond in *.
  Z.to_euclidean_division_equations; lia.
Qed.

Section SlotFacts.
Variable hostRule : Z → Z.
Variable rule : string → Z → option Z.
Variable atChange : ZonedMoment → Z → Z → Z → ZonedMoment.
Variables (tz : string) (od day : Z).

(** The display zone keeps the offset [od] throughout its day [day]. *)
Hypothesis no_change :
  ∀ t, Day (t + od * msPerMinute) = day → rule tz t = Some od.

Lemma zonedSet_zonedAt unit_ range v l :
  Day (l + (v - (l / unit_) mod range) * unit_) = day →
  zonedSet hostRule rule atChange unit_ range v (zonedAt tz od l)
  = zonedAt tz od (l + (v - (l / unit_) mod range) * unit_).
Proof.
  intros Hday.
  assert (Hl : zonedLocal (zonedAt tz od l) = l)
    by (unfold zonedLocal, zonedAt; cbn [z_instant z_offset]; lia).
  rewrite zonedSet_kept; rewrite Hl.
  - unfold zonedAt. cbn [z_instant z_zone z_offset]. f_equal. lia.
  - unfold zonedAt. cbn [z_instant z_zone z_offset ruleOf]. apply no_change.
    rewrite <- Hday. f_equal. lia.
Qed.

(** The slot the code builds for hour [h] reads [h]:00:00, with the
    milliseconds of [date], on the day on which the instant [date] falls in
    the display zone. *)
Lemma slotStart_display_day date h :
  rule tz date = Some od →
  Day (date + od * msPerMinute) = day →
  0 <= h < 24 →
  slotStart (mz := zoneRules hostRule rule atChange) date tz h
  = zonedAt tz od (MakeDate day (h * msPerHour) + date mod msPerSecond).
Proof.
  intros Hod Hday Hh. unfold slotStart.
  cbn [m_tz moment m_set_hour m_set_minute m_set_second zoneRules].
  unfold zonedTz. cbn [z_instant]. rewrite Hod.
  set (l := date + od * msPerMinute) in *.
  replace {| z_instant := date; z_zone := Some tz; z_offset := od |}
    with (zonedAt tz od l)
    by (unfold zonedAt, l; f_equal; lia).
  destruct (set_hour_local l h Hh) as [Hd1 Hl1]. cbv zeta in Hd1, Hl1.
  rewrite zonedSet_zonedAt by (rewrite Hd1; exact Hday).
  rewrite Hl1, Hday.
  assert (Hr1 : 0 <= l mod msPerHour < msPerHour)
    by (apply Z.mod_pos_bound; reflexivity).
  destruct (set_minute_local day h (l mod msPerHour) Hh Hr1) as [Hd2 Hl2].
  cbv zeta in Hd2, Hl2.
  rewrite zonedSet_zonedAt by exact Hd2.
  rewrite Hl2.
  assert (Hr2 : 0 <= (l mod msPerHour) mod msPerMinute < msPerMinute)
    by (apply Z.mod_pos_bound; reflexivity).
  destruct (set_second_local day h _ Hh Hr2) as [Hd3 Hl3].
  cbv zeta in Hd3, Hl3.
  rewrite zonedSet_zonedAt by exact Hd3.
  rewrite Hl3. f_equal. unfold MakeDate.
  assert (Hms : ((l mod msPerHour) mod msPerMinute) mod msPerSecond
                = date mod msPerSecond).
  { rewrite (Z.mod_mod_divide l msPerHour msPerMinute) by (exists 60; reflexivity).
    rewrite (Z.mod_mod_divide l msPerMinute msPerSecond) by (exists 60; reflexivity).
    unfold l. replace (od * msPerMinute) with (od * 60 * msPerSecond)
      by (unfold msPerMinute, msPerSecond; lia).
    apply Z.mod_add. discriminate. }
  lia.
Qed.

End SlotFacts.

(** On days on which the display zone keeps its offset, the list holds the
    hours at which every participant is awake on the display-zone day of the
    instant [date]. *)
Lemma getCommonAwakeHours_zoneRules hostRule rule atChange
    (selectedParticipants : list Participant) (awakeStart awakeEnd date : Z)
    (tz : string) (od : Z) :
  let day := Day (date + od * msPerMinute) in
  rule tz date = Some od →
  (∀ t, Day (t + od * msPerMinute) = day → rule tz t = Some od) →
  ∀ h,
    let slot := spec_slotInstant od day h + date mod msPerSecond in
    (∀ p, p ∈ selectedParticipants →
          is_Some (rule (split_space_0 (p_timezone p)) slot)) →
    h ∈ getCommonAwakeHours (mz := zoneRules hostRule rule atChange)
          selectedParticipants awakeStart awakeEnd date tz
    ↔ 0 <= h < 24
      ∧ ∀ p op, p ∈ selectedParticipants →
                rule (split_space_0 (p_timezone p)) slot = Some op →
                let hour := HourFromTime (slot + op * msPerMinute) in
                awakeStart <= hour ∧ hour < awakeEnd.
Proof.
  intros day Hod Hday h slot Hknown.
  rewrite getCommonAwakeHours_elem_of, allAwake_spec.
  split; intros [Hh Hall]; (split; [exact Hh |]).
  - intros p op Hp Hop. specialize (Hall p Hp).
    rewrite (slotStart_display_day hostRule rule atChange tz od day Hday date h
               Hod eq_refl Hh) in Hall.
    cbn [m_tz m_hour zoneRules] in Hall. unfold zonedTz, zonedAt in Hall.
    cbn [z_instant] in Hall.
    replace (MakeDate day (h * msPerHour) + date mod msPerSecond - od * msPerMinute)
      with slot in Hall by (unfold slot, spec_slotInstant; lia).
    rewrite Hop in Hall. exact Hall.
  - intros p Hp. destruct (Hknown p Hp) as [op Hop].
    specialize (Hall p op Hp Hop).
    rewrite (slotStart_display_day hostRule rule atChange tz od day Hday date h
               Hod eq_refl Hh).
    cbn [m_tz m_hour zoneRules]. unfold zonedTz, zonedAt.
    cbn [z_instant].
    replace (MakeDate day (h * msPerHour) + date mod msPerSecond - od * msPerMinute)
      with slot by (unfold slot, spec_slotInstant; lia).
    rewrite Hop. exact Hall.
Qed.

(** The calendar passes the host's midnight of the selected day [d]: in a
    display zone west of the host that instant falls on day [d - 1]. *)
Lemma display_day_of_host_midnight (hostOffset od d : Z) :
  let date := MakeDate d 0 - hostOffset * msPerMinute in
  (od < hostOffset <= od + 1440 → Day (date + od * msPerMinute) = d - 1)
  ∧ (hostOffset <= od < hostOffset + 1440 → Day (date + od * msPerMinute) = d).
Proof.
  cbv zeta. unfold MakeDate, Day, msPerDay, msPerMinute.
  split; intros H; Z.to_euclidean_division_equations; lia.
Qed.

(** Between zones that keep their offsets the hour of day read at
    [h]:00:00 does not depend on the day. *)
Lemma spec_slot_hour_any_day od op day day' h :
  HourFromTime (spec_slotInstant od day h + op * msPerMinute)
  = HourFromTime (spec_slotInstant od day' h + op * msPerMinute).
Proof.
  unfold HourFromTime, spec_slotInstant, MakeDate, msPerDay, msPerHour, msPerMinute.
  Z.to_euclidean_division_equations; lia.
Qed.


(** *** Windows that do not wrap *)

(** C10: for every non-empty participant list, date and display timezone,
    an awake window with [awakeEnd <= awakeStart] yields no common hour: the
    window is read within one day and does not wrap past midnight. *)
Theorem getCommonAwakeHours_no_wrap `{mz : MomentTz}
    (selectedParticipants : list Participant) (awakeStart awakeEnd date : Z)
    (tz : string) :
  selectedParticipants ≠ [] →
  awakeEnd <= awakeStart →
  getCommonAwakeHours selectedParticipants awakeStart awakeEnd date tz = [].
Proof.
  intros Hne Hwin.
  destruct (getCommonAwakeHours _ _ _ _ _) as [| h hours] eqn:Hhours; [done |].
  assert (Hin : h ∈ getCommonAwakeHours selectedParticipants awakeStart awakeEnd
                                        date tz)
    by (rewrite Hhours; apply list_elem_of_here).
  apply getCommonAwakeHours_elem_of in Hin as [_ Hall].
  rewrite allAwake_spec in Hall.
  destruct selectedParticipants as [| p ps]; [congruence |].
  specialize (Hall p (list_elem_of_here _ _)). lia.
Qed.

Lemma getCommonAwakeHours_no_wrap_witness :
  [tokyo; phoenix] ≠ []
  ∧ 6 <= 22
  ∧ getCommonAwakeHours (mz := fixedZones) [tokyo; phoenix] 22 6
                        t_2024_01_05_noon "UTC" = [].
Proof.
  split; [discriminate |]. split; [lia |].
  apply (getCommonAwakeHours_no_wrap (mz := fixedZones)); [discriminate | lia].
Defined.

(** ** The range walk misses the end's year *)

(** C7: [getYearsInRange] does not always contain the end date's year.  On
    a host in UTC, from 31 December 2024 12:00 to 1 January 2025 00:00 the
    loop visits 31 December only (the next step, 1 January 12:00, is past
    the end), and returns the single year 2024 although the end date lies
    in 2025; a larger iteration budget changes nothing. *)
Theorem getYearsInRange_misses_end_year (fuel : nat) :
  t_2024_12_31_noon <= t_2025_01_01
  ∧ getYearsInRange (hz := utcHost) (S (S fuel))
                    (Some t_2024_12_31_noon) (Some t_2025_01_01) = Some [2024]
  ∧ getFullYear (hz := utcHost) t_2025_01_01 = 2025.
Proof. repeat split. vm_compute. discriminate. Qed.

(** ** The participant list *)

Section RegistryFacts.
Implicit Types (ps : list Participant) (p : Participant) (id : string).

Lemma existsb_id ps id :
  existsb (λ q, String.eqb (p_id q) id) ps = true ↔ id ∈ map p_id ps.
Proof.
  rewrite existsb_exists, list_elem_of_In, in_map_iff.
  split; intros (q & H1 & H2); exists q.
  - apply String.eqb_eq in H2. done.
  - split; [done | by apply String.eqb_eq].
Qed.

Lemma handleAddParticipant_present ps p :
  p_id p ∈ map p_id ps → handleAddParticipant ps p = ps.
Proof.
  intros Hin. unfold handleAddParticipant.
  apply existsb_id in Hin. by rewrite Hin.
Qed.

Lemma handleAddParticipant_absent ps p :
  p_id p ∉ map p_id ps → handleAddParticipant ps p = ps ++ [p].
Proof.
  intros Hin. unfold handleAddParticipant.
  rewrite <- existsb_id in Hin.
  by destruct (existsb _ ps).
Qed.

Lemma handleRemoveParticipant_absent ps id :
  id ∉ map p_id ps → handleRemoveParticipant ps id = ps.
Proof.
  unfold handleRemoveParticipant.
  induction ps as [| q ps IH]; intros Hin; [done |].
  simpl in *. apply not_elem_of_cons in Hin as [Hne Hin].
  destruct (String.eqb_spec (p_id q) id) as [Heq | _]; [congruence |].
  simpl. by rewrite IH.
Qed.

Lemma handleRemoveParticipant_ids ps id x :
  x ∈ map p_id (handleRemoveParticipant ps id) ↔ x ∈ map p_id ps ∧ x ≠ id.
Proof.
  unfold handleRemoveParticipant.
  induction ps as [| q ps IH]; simpl.
  - split; [intros Hx | intros [Hx _]]; by apply elem_of_nil in Hx.
  - destruct (String.eqb_spec (p_id q) id) as [Heq | Hne]; simpl.
    + rewrite IH, elem_of_cons. split; [tauto |].
      intros [[-> | Hx] Hxid]; [congruence | done].
    + rewrite !elem_of_cons, IH. split; [| tauto].
      intros [-> | [Hx Hxid]]; [split; [by left | done] | split; [by right | done]].
Qed.

Lemma handleAddParticipant_NoDup ps p :
  NoDup (map p_id ps) → NoDup (map p_id (handleAddParticipant ps p)).
Proof.
  intros Hnd. destruct (decide (p_id p ∈ map p_id ps)) as [Hin | Hin].
  - by rewrite handleAddParticipant_present.
  - rewrite handleAddParticipant_absent by done.
    rewrite map_app. apply NoDup_app. split; [done |]. split.
    + intros x Hx Hx'. apply list_elem_of_singleton in Hx'. by subst.
    + apply NoDup_singleton.
Qed.

Lemma handleRemoveParticipant_NoDup ps id :
  NoDup (map p_id ps) → NoDup (map p_id (handleRemoveParticipant ps id)).
Proof.
  unfold handleRemoveParticipant.
  induction ps as [| q ps IH]; simpl; [done |].
  intros Hnd. apply NoDup_cons in Hnd as [Hq Hnd].
  destruct (negb (String.eqb (p_id q) id)); [| by apply IH].
  simpl. apply NoDup_cons. split; [| by apply IH].
  intros Hin. apply (handleRemoveParticipant_ids ps id) in Hin as [Hin _]. done.
Qed.

Lemma registryStep_NoDup ps e :
  NoDup (map p_id ps) → NoDup (map p_id (registryStep ps e)).
Proof.
  destruct e as [p | id |]; simpl.
  - apply handleAddParticipant_NoDup.
  - apply handleRemoveParticipant_NoDup.
  - intros _. apply NoDup_nil_2.
Qed.

Lemma registryRun_NoDup es : NoDup (map p_id (registryRun es)).
Proof.
  unfold registryRun.
  assert (Hgen : ∀ ps, NoDup (map p_id ps) →
                       NoDup (map p_id (fold_left registryStep es ps))).
  { induction es as [| e es IH]; intros ps Hnd; [done |].
    simpl. apply IH. by apply registryStep_NoDup. }
  apply Hgen. apply NoDup_nil_2.
Qed.

End RegistryFacts.

(** C9: adding a participant whose id is already present leaves the list
    unchanged, so a second add of the same participant changes nothing;
    removing an id that is absent leaves the list unchanged, so a second
    remove of the same id changes nothing; and every list reachable from
    the empty one by add, remove and reset events holds each id at most
    once. *)
Theorem registry_add_remove_idempotent
    (ps : list Participant) (p : Participant) (id : string)
    (es : list RegistryEvent) :
  (p_id p ∈ map p_id ps → handleAddParticipant ps p = ps)
  ∧ handleAddParticipant (handleAddParticipant ps p) p = handleAddParticipant ps p
  ∧ (id ∉ map p_id ps → handleRemoveParticipant ps id = ps)
  ∧ handleRemoveParticipant (handleRemoveParticipant ps id) id
    = handleRemoveParticipant ps id
  ∧ NoDup (map p_id (registryRun es)).
Proof.
  split; [apply handleAddParticipant_present |].
  split.
  { apply handleAddParticipant_present.
    destruct (decide (p_id p ∈ map p_id ps)) as [Hin | Hin].
    - by rewrite handleAddParticipant_present.
    - rewrite handleAddParticipant_absent by done.
      rewrite map_app, elem_of_app. right. apply list_elem_of_singleton. done. }
  split; [apply handleRemoveParticipant_absent |].
  split; [| apply registryRun_NoDup].
  apply handleRemoveParticipant_absent.
  rewrite handleRemoveParticipant_ids. tauto.
Qed.

(** ** The fetch effect *)

Section FetchFacts.
Implicit Types (cache : gmap string (gmap Z (list HolidayRecord))).
Implicit Types (tasks : list Request) (codes : list string) (years : list Z).

Lemma yearsForEach_elem_of cache code years tasks req :
  req ∈ yearsForEach cache code years tasks →
  req ∈ tasks ∨ (req.2 = code ∧ req.1 ∈ years ∧ cached cache code req.1 = None).
Proof.
  unfold yearsForEach. revert tasks.
  induction years as [| year years IH]; intros tasks; simpl; [by left |].
  intros Hin. apply IH in Hin as [Hin | (Hc & Hy & Hn)].
  - destruct (cached cache code year) eqn:Hcached; [by left |].
    apply elem_of_app in Hin as [Hin | Hin]; [by left |].
    apply list_elem_of_singleton in Hin as ->. right. simpl.
    split; [done |]. split; [apply list_elem_of_here | done].
  - right. split; [done |]. split; [by apply list_elem_of_further | done].
Qed.

(** Giving a code an empty object changes no cached list. *)
Lemma cached_insert_empty cache code c y :
  cache !! code = None → cached (<[code := ∅]> cache) c y = cached cache c y.
Proof.
  intros Hnone. unfold cached.
  destruct (decide (code = c)) as [<- | Hne].
  - rewrite lookup_insert_eq, Hnone. simpl. apply lookup_empty.
  - by rewrite lookup_insert_ne.
Qed.

Lemma codesForEach_fold codes years cache tasks cache' tasks' :
  fold_left (λ '(cache, tasks) code,
               let cache' :=
                 match cache !! code with
                 | None => <[code := ∅]> cache
                 | Some _ => cache
                 end in
               (cache', yearsForEach cache' code years tasks))
            codes (cache, tasks) = (cache', tasks') →
  (∀ c y, cached cache' c y = cached cache c y)
  ∧ ∀ req, req ∈ tasks' →
           req ∈ tasks
           ∨ (req.2 ∈ codes ∧ req.1 ∈ years ∧ cached cache req.2 req.1 = None).
Proof.
  revert cache tasks.
  induction codes as [| code codes IH]; intros cache tasks; simpl.
  - intros [= <- <-]. split; [done | by left].
  - set (cache1 := match cache !! code with
                   | None => <[code := ∅]> cache
                   | Some _ => cache
                   end).
    assert (Hsame : ∀ c y, cached cache1 c y = cached cache c y).
    { intros c y. subst cache1.
      destruct (cache !! code) eqn:Hc; [done |]. by apply cached_insert_empty. }
    intros Hrun. apply IH in Hrun as [Hcache Htasks].
    split; [intros c y; by rewrite Hcache, Hsame |].
    intros req Hin. apply Htasks in Hin as [Hin | (Hc & Hy & Hn)].
    + apply yearsForEach_elem_of in Hin as [Hin | (Hc & Hy & Hn)]; [by left |].
      right. rewrite Hc. split; [apply list_elem_of_here |].
      split; [done |]. by rewrite <- Hsame.
    + right. split; [by apply list_elem_of_further |].
      split; [done |]. by rewrite <- Hsame.
Qed.

Lemma codesForEach_spec codes years cache cache' tasks' :
  codesForEach codes years cache = (cache', tasks') →
  (∀ c y, cached cache' c y = cached cache c y)
  ∧ ∀ req, req ∈ tasks' →
           req.2 ∈ codes ∧ req.1 ∈ years ∧ cached cache req.2 req.1 = None.
Proof.
  unfold codesForEach. intros Hrun.
  apply codesForEach_fold in Hrun as [Hcache Htasks].
  split; [done |]. intros req Hin.
  apply Htasks in Hin as [Hin | Hin]; [by apply elem_of_nil in Hin | done].
Qed.

Lemma lastFetchKey_settleAll settled refs :
  lastFetchKey (settleAll settled refs) = lastFetchKey refs.
Proof.
  unfold settleAll. revert refs.
  induction settled as [| [[code year] data] settled IH]; intros refs; [done |].
  simpl. by rewrite IH.
Qed.

Context `{hz : HostZone}.

(** After a run, the refs hold the key of the run unless the run stopped at
    one of its guards, and then a run on the same inputs stops there too. *)
Lemma fetchEffect_again fuel fuel2 range codes refs reqs refs' refs2 :
  fetchEffect fuel range codes refs = Some (reqs, refs') →
  lastFetchKey refs2 = lastFetchKey refs' →
  ∀ reqs2 refs2',
    fetchEffect fuel2 range codes refs2 = Some (reqs2, refs2') → reqs2 = [].
Proof.
  unfold fetchEffect. intros Hrun Hkey reqs2 refs2'.
  destruct (start range) as [s |]; [| by intros [= <- _]].
  destruct (end_ range) as [e |]; [| by intros [= <- _]].
  case_bool_decide; [by intros [= <- _] |].
  destruct (getYearsInRange fuel (Some s) (Some e)) as [years |] eqn:Hy;
    [| done].
  destruct (getYearsInRange fuel2 (Some s) (Some e)) as [years2 |] eqn:Hy2;
    [| done].
  assert (years2 = years) as ->
    by (eapply getYearsInRange_deterministic; eassumption).
  simpl in *.
  destruct (String.eqb_spec (lastFetchKey refs2) (fetchKeyOf codes years))
    as [_ | Hne]; [by intros [= <- _] |].
  exfalso. apply Hne. rewrite Hkey.
  destruct (String.eqb_spec (lastFetchKey refs) (fetchKeyOf codes years))
    as [Heq | _].
  - by injection Hrun as _ <-.
  - destruct (codesForEach codes years (holidaysCache refs)) as [cache' tasks].
    by injection Hrun as _ <-.
Qed.

End FetchFacts.

(** C8: in a run of the fetch effect, a request is issued only for a
    (country code, year) pair that has no entry in the cache; if the
    composite key of the run equals the key stored by the previous run, no
    request is issued and the refs are left as they are; and a further run
    on the same range and country codes, after any number of requests have
    settled, issues no request. *)
Theorem fetchEffect_only_missing_and_once `{hz : HostZone}
    (fuel : nat) (range : CalendarRange) (codes : list string)
    (refs refs' : FetchRefs) (reqs : list Request) :
  fetchEffect fuel range codes refs = Some (reqs, refs') →
  (∀ year code, (year, code) ∈ reqs →
                cached (holidaysCache refs) code year = None)
  ∧ (∀ years, getYearsInRange fuel (start range) (end_ range) = Some years →
              lastFetchKey refs = fetchKeyOf codes years →
              reqs = [] ∧ refs' = refs)
  ∧ (∀ settled fuel2 reqs2 refs2,
       fetchEffect fuel2 range codes (settleAll settled refs') = Some (reqs2, refs2) →
       reqs2 = []).
Proof.
  intros Hrun. split; [| split].
  - intros year code Hin. unfold fetchEffect in Hrun.
    destruct (start range) as [s |];
      [| injection Hrun as <- _; by apply elem_of_nil in Hin].
    destruct (end_ range) as [e |];
      [| injection Hrun as <- _; by apply elem_of_nil in Hin].
    case_bool_decide; [injection Hrun as <- _; by apply elem_of_nil in Hin |].
    destruct (getYearsInRange fuel (Some s) (Some e)) as [years |]; [| done].
    simpl in Hrun.
    destruct (String.eqb _ _);
      [injection Hrun as <- _; by apply elem_of_nil in Hin |].
    destruct (codesForEach codes years (holidaysCache refs))
      as [cache' tasks] eqn:Hfor.
    injection Hrun as <- _.
    apply codesForEach_spec in Hfor as [_ Htasks].
    by destruct (Htasks (year, code) Hin) as (_ & _ & Hnone).
  - intros years Hyears Hkey. unfold fetchEffect in Hrun.
    destruct (start range) as [s |]; [| by injection Hrun as <- <-].
    destruct (end_ range) as [e |]; [| by injection Hrun as <- <-].
    case_bool_decide; [by injection Hrun as <- <- |].
    rewrite Hyears in Hrun. simpl in Hrun.
    rewrite Hkey, String.eqb_refl in Hrun. by injection Hrun as <- <-.
  - intros settled fuel2 reqs2 refs2.
    eapply fetchEffect_again; [exact Hrun |].
    apply lastFetchKey_settleAll.
Qed.

Lemma fetchEffect_only_missing_and_once_witness :
  ∃ reqs refs',
    fetchEffect (hz := utcHost) 10 (mkRange (Some t_2024_12_30) (Some t_2025_01_01))
                ["US"; "JP"] initialRefs = Some (reqs, refs')
    ∧ reqs = [(2024, "US"); (2025, "US"); (2024, "JP"); (2025, "JP")]
    ∧ (∀ year code, (year, code) ∈ reqs →
                    cached (holidaysCache initialRefs) code year = None)
    ∧ (∀ settled fuel2 reqs2 refs2,
         fetchEffect (hz := utcHost) fuel2
                     (mkRange (Some t_2024_12_30) (Some t_2025_01_01))
                     ["US"; "JP"] (settleAll settled refs') = Some (reqs2, refs2) →
         reqs2 = []).
Proof.
  eexists. eexists.
  match goal with
  | |- ?run ∧ _ => assert (Hrun : run) by (vm_compute; reflexivity)
  end.
  split; [exact Hrun |]. split; [reflexivity |].
  destruct (fetchEffect_only_missing_and_once (hz := utcHost) _ _ _ _ _ _ Hrun)
    as (Hmiss & _ & Honce).
  split; [exact Hmiss | exact Honce].
Defined.

(** On a host without clock changes the effect always completes within the
    budget of [steps] iterations plus one. *)
Lemma fetchEffect_fixed_host_returns (offsetMs s e : Z) codes refs :
  is_Some (fetchEffect (hz := fixedHost offsetMs) (S (steps s e))
                       (mkRange (Some s) (Some e)) codes refs).
Proof.
  unfold fetchEffect. simpl. case_bool_decide; [done |].
  destruct (getYearsInRange_fixed_host offsetMs s e) as (r & Hr & _).
  simpl in Hr. rewrite Hr. simpl.
  destruct (String.eqb _ _); [done |].
  by destruct (codesForEach _ _ _).
Qed.

(** * Further properties of the component *)

(** ** Country codes and timezones of the participants *)

Section UniqFacts.

Lemma uniq_fold (xs acc : list string) :
  NoDup acc →
  let r := fold_left (λ acc x, if bool_decide (x ∈ acc) then acc else acc ++ [x])
                     xs acc in
  NoDup r ∧ acc `prefix_of` r ∧ ∀ x, x ∈ r ↔ x ∈ acc ∨ x ∈ xs.
Proof.
  revert acc. induction xs as [| x xs IH]; intros acc Hnd; simpl.
  - split; [done |]. split; [done |]. intros y. split; [by left |].
    intros [Hy | Hy]; [done | by apply elem_of_nil in Hy].
  - case_bool_decide as Hx.
    + destruct (IH acc Hnd) as (Hr & Hpre & Hin). split; [done |].
      split; [done |]. intros y. rewrite Hin, elem_of_cons.
      split; [tauto |]. intros [Hy | [-> | Hy]]; tauto.
    + assert (Hnd' : NoDup (acc ++ [x])).
      { apply NoDup_app. split; [done |]. split; [| apply NoDup_singleton].
        intros y Hy Hy'. apply list_elem_of_singleton in Hy'. by subst. }
      destruct (IH (acc ++ [x]) Hnd') as (Hr & Hpre & Hin). split; [done |].
      split.
      * etrans; [| exact Hpre]. by apply prefix_app_r.
      * intros y. rewrite Hin, elem_of_app, list_elem_of_singleton, elem_of_cons.
        tauto.
Qed.

Lemma uniq_spec (xs : list string) :
  NoDup (uniq xs) ∧ ∀ x, x ∈ uniq xs ↔ x ∈ xs.
Proof.
  destruct (uniq_fold xs [] (NoDup_nil_2 (A := string))) as (Hnd & _ & Hin).
  split; [done |]. intros x. unfold uniq. rewrite Hin.
  split; [| by right]. intros [Hx | Hx]; [by apply elem_of_nil in Hx | done].
Qed.

Lemma uniq_snoc (xs : list string) (x : string) :
  uniq (xs ++ [x]) = if bool_decide (x ∈ uniq xs) then uniq xs else uniq xs ++ [x].
Proof. unfold uniq. by rewrite fold_left_app. Qed.

Lemma truthy_ne (s : string) : truthy s = true ↔ s ≠ ""%string.
Proof.
  unfold truthy. rewrite negb_true_iff.
  destruct (String.eqb_spec s ""); split; congruence.
Qed.

Lemma countryCodes_NoDup (ps : list Participant) : NoDup (countryCodes ps).
Proof. unfold countryCodes. apply uniq_spec. Qed.

End UniqFacts.

(** X1: [countryCodes] lists each non-empty country code of the
    participants exactly once: it has no duplicates, never contains the
    empty string, and a code is in it if and only if some participant
    carries it. *)
Theorem countryCodes_spec (selectedParticipants : list Participant) :
  NoDup (countryCodes selectedParticipants)
  ∧ ∀ code, code ∈ countryCodes selectedParticipants
            ↔ code ≠ ""%string
              ∧ ∃ p, p ∈ selectedParticipants ∧ p_iso2 p = code.
Proof.
  unfold countryCodes.
  destruct (uniq_spec (filter (λ s, truthy s = true)
                              (map p_iso2 selectedParticipants))) as [Hnd Hin].
  split; [done |]. intros code.
  rewrite Hin, list_elem_of_filter, truthy_ne, list_elem_of_In, in_map_iff.
  setoid_rewrite <- list_elem_of_In.
  split; intros [Hne (p & H1 & H2)]; (split; [done |]); exists p; done.
Qed.

(** X2: [timezones] lists, without duplicates, the zone names of the
    participants with the advisory suffix cut off: a name is in it if and
    only if it is non-empty and is the text before the first space of some
    participant's [timezone] field. *)
Theorem timezones_spec (selectedParticipants : list Participant) :
  NoDup (timezones selectedParticipants)
  ∧ ∀ tz, tz ∈ timezones selectedParticipants
          ↔ tz ≠ ""%string
            ∧ ∃ p, p ∈ selectedParticipants ∧ split_space_0 (p_timezone p) = tz.
Proof.
  unfold timezones.
  destruct (uniq_spec (filter (λ s, truthy s = true)
                              (map (λ p, split_space_0 (p_timezone p))
                                   selectedParticipants))) as [Hnd Hin].
  split; [done |]. intros tz.
  rewrite Hin, list_elem_of_filter, truthy_ne, list_elem_of_In, in_map_iff.
  setoid_rewrite <- list_elem_of_In.
  split; intros [Hne (p & H1 & H2)]; (split; [done |]); exists p; done.
Qed.

(** X3: adding a participant keeps the position of every country code
    already listed (positions select the country's colour): the codes before
    the add are a prefix of the codes after it, extended by at most the new
    participant's code. *)
Theorem countryCodes_add_stable (selectedParticipants : list Participant)
    (participant : Participant) :
  let before := countryCodes selectedParticipants in
  let after := countryCodes (handleAddParticipant selectedParticipants participant) in
  after = before ∨ after = before ++ [p_iso2 participant].
Proof.
  cbv zeta. unfold handleAddParticipant.
  destruct (negb (existsb _ selectedParticipants)); [| by left].
  unfold countryCodes. rewrite map_app. simpl.
  rewrite filter_app, filter_cons, filter_nil.
  case_decide as Ht.
  - rewrite uniq_snoc. case_bool_decide; [by left | by right].
  - left. by rewrite app_nil_r.
Qed.

(** ** The display timezone effect *)

(** X4: after the effect the display timezone is one of the participants'
    timezones whenever there is any (so a choice of "UTC" from the selector
    does not survive the effect unless a participant is in UTC); a display
    timezone already in the list, or an empty list, leaves it unchanged, and
    running the effect again changes nothing. *)
Theorem calendarTzEffect_spec (timezones_ : list string) (calendarTz : string) :
  (timezones_ ≠ [] → calendarTzEffect timezones_ calendarTz ∈ timezones_)
  ∧ (calendarTz ∈ timezones_ ∨ timezones_ = [] →
     calendarTzEffect timezones_ calendarTz = calendarTz)
  ∧ calendarTzEffect timezones_ (calendarTzEffect timezones_ calendarTz)
    = calendarTzEffect timezones_ calendarTz.
Proof.
  assert (Hmem : ∀ tz, existsb (String.eqb tz) timezones_ = true ↔ tz ∈ timezones_).
  { intros tz. rewrite existsb_exists. setoid_rewrite list_elem_of_In.
    split.
    - intros (x & Hx & Heq). apply String.eqb_eq in Heq. by subst.
    - intros Hx. exists tz. split; [done | apply String.eqb_refl]. }
  assert (Hin : timezones_ ≠ [] → calendarTzEffect timezones_ calendarTz ∈ timezones_).
  { intros Hne. unfold calendarTzEffect.
    destruct timezones_ as [| tz0 tzs]; [done |].
    destruct (existsb _ (tz0 :: tzs)) eqn:Hex; simpl.
    - by apply Hmem.
    - apply list_elem_of_here. }
  assert (Hid : ∀ tz, tz ∈ timezones_ ∨ timezones_ = [] →
                      calendarTzEffect timezones_ tz = tz).
  { intros tz [Htz | ->]; [| done]. unfold calendarTzEffect.
    apply Hmem in Htz. rewrite Htz. by rewrite andb_false_r. }
  split; [done |]. split; [apply Hid |].
  apply Hid. destruct timezones_ as [| tz0 tzs]; [by right |].
  left. by apply Hin.
Qed.

(** ** The dates of the view *)

Section AllDatesFacts.
Context `{hz : HostZone}.

(** The years collected from a list of dates, in visiting order. *)
Lemma elem_of_fold_set_add (ds : list Z) (years : list Z) (y : Z) :
  y ∈ fold_left (λ acc d, set_add (getFullYear d) acc) ds years
  ↔ y ∈ years ∨ ∃ d, d ∈ ds ∧ getFullYear d = y.
Proof.
  revert years. induction ds as [| d ds IH]; intros years; simpl.
  - split; [by left |]. intros [Hy | (d & Hd & _)]; [done |].
    by apply elem_of_nil in Hd.
  - rewrite IH, elem_of_set_add. split.
    + intros [[-> | Hy] | (d' & Hd' & Hy)].
      * right. exists d. split; [apply list_elem_of_here | done].
      * by left.
      * right. exists d'. split; [by apply list_elem_of_further | done].
    + intros [Hy | (d' & Hd' & Hy)]; [by left; right |].
      apply elem_of_cons in Hd' as [-> | Hd']; [by left; left |].
      right. by exists d'.
Qed.

(** The two walks of the range take the same steps. *)
Lemma allDatesLoop_yearsLoop fuel d e acc years ds :
  allDatesLoop fuel d e acc = Some ds →
  ∃ new, ds = acc ++ new
         ∧ yearsLoop fuel d e years
           = Some (fold_left (λ a x, set_add (getFullYear x) a) new years).
Proof.
  revert d acc years. induction fuel as [| fuel IH]; intros d acc years; [done |].
  simpl. destruct (d <=? e).
  - intros Hrun.
    destruct (IH _ _ (set_add (getFullYear d) years) Hrun) as (new & -> & Hy).
    exists (d :: new). split; [by rewrite <- app_assoc |]. done.
  - intros [= <-]. exists []. split; [by rewrite app_nil_r | done].
Qed.

Lemma allDatesLoop_more_fuel fuel fuel' d e acc r :
  allDatesLoop fuel d e acc = Some r → (fuel <= fuel')%nat →
  allDatesLoop fuel' d e acc = Some r.
Proof.
  revert fuel' d acc. induction fuel as [| fuel IH]; intros fuel' d acc; [done |].
  intros Hrun Hle. destruct fuel' as [| fuel']; [lia |].
  simpl in *. destruct (d <=? e); [| done].
  apply IH; [done | lia].
Qed.

End AllDatesFacts.

(** X5: the dates of the view and the years fetched for it come from the
    same walk: whenever [allDates] is computed for a range, [getYearsInRange]
    on that range returns as well, and its years are exactly the calendar
    years of the dates in [allDates]; no date of the view is left without
    its year. *)
Theorem allDates_years_agree `{hz : HostZone} (fuel : nat)
    (calendarRange : CalendarRange) (ds : list Z) :
  allDates fuel calendarRange = Some ds →
  ∃ years,
    getYearsInRange fuel (start calendarRange) (end_ calendarRange) = Some years
    ∧ ∀ y, y ∈ years ↔ ∃ d, d ∈ ds ∧ getFullYear d = y.
Proof.
  unfold allDates, getYearsInRange.
  destruct (start calendarRange) as [s |], (end_ calendarRange) as [e |];
    try (intros [= <-]; exists []; split; [done |]; intros y;
         split; [intros Hy; by apply elem_of_nil in Hy
                | intros (d & Hd & _); by apply elem_of_nil in Hd]).
  intros Hrun.
  destruct (allDatesLoop_yearsLoop _ _ _ _ [] _ Hrun) as (new & -> & Hy).
  eexists. split; [exact Hy |]. intros y.
  rewrite elem_of_fold_set_add. simpl. split; [| by right].
  intros [Hin | Hd]; [by apply elem_of_nil in Hin | done].
Qed.

Lemma allDates_years_agree_witness :
  ∃ ds,
    allDates (hz := utcHost) 10 (mkRange (Some t_2024_12_30) (Some t_2025_01_01))
    = Some ds
    ∧ ds = [t_2024_12_30; t_2024_12_30 + msPerDay; t_2025_01_01]
    ∧ ∃ years,
        getYearsInRange (hz := utcHost) 10 (Some t_2024_12_30) (Some t_2025_01_01)
        = Some years
        ∧ ∀ y, y ∈ years ↔ ∃ d, d ∈ ds ∧ getFullYear (hz := utcHost) d = y.
Proof.
  eexists.
  match goal with
  | |- ?run ∧ _ => assert (Hrun : run) by (vm_compute; reflexivity)
  end.
  split; [exact Hrun |]. split; [reflexivity |].
  exact (allDates_years_agree (hz := utcHost) _ _ _ Hrun).
Defined.

Section AllDatesFixedHost.
Variable offsetMs : Z.
Local Abbreviation fixed := (fixedHost offsetMs).

Lemma allDatesLoop_fixed_host fuel (n : nat) d e acc :
  steps d e = n → (n < fuel)%nat →
  allDatesLoop (hz := fixed) fuel d e acc
  = Some (acc ++ ((λ k, d + k * msPerDay) <$> seqZ 0 (Z.of_nat n))).
Proof.
  revert fuel d acc. induction n as [| n IH]; intros fuel d acc Hn Hfuel.
  - destruct fuel as [| fuel]; [lia |]. simpl.
    destruct (Z.leb_spec d e) as [Hle | Hgt].
    + rewrite (steps_next d e Hle) in Hn. lia.
    + by rewrite app_nil_r.
  - destruct fuel as [| fuel]; [lia |]. simpl.
    destruct (Z.leb_spec d e) as [Hle | Hgt].
    + rewrite setDate_next_day. rewrite (steps_next d e Hle) in Hn.
      rewrite (IH fuel (d + msPerDay) (acc ++ [d])) by lia.
      f_equal. rewrite <- app_assoc. f_equal.
      assert (Hseq : seqZ 0 (Z.of_nat (S n)) = 0 :: (Z.add 1 <$> seqZ 0 (Z.of_nat n))).
      { rewrite seqZ_cons by lia. f_equal. rewrite fmap_add_seqZ.
        f_equal; lia. }
      rewrite Hseq, fmap_cons. simpl.
      replace (d + 0 * msPerDay) with d by lia. f_equal.
      rewrite <- list_fmap_compose. apply list_fmap_ext.
      intros i k _. simpl. lia.
    + unfold steps in Hn.
      assert ((e - d) / msPerDay < 0)
        by (apply Z.div_lt_upper_bound; unfold msPerDay; lia).
      lia.
Qed.

End AllDatesFixedHost.

(** X6: on a host without clock changes [allDates] always returns (within
    [steps] + 1 iterations), and its dates are [start], [start] + 1 day, ...,
    one per step: they keep the start's time of day, are strictly
    increasing, and none is after [end]. *)
Theorem allDates_fixed_host (offsetMs s e : Z) :
  let ds := (λ k, s + k * msPerDay) <$> seqZ 0 (Z.of_nat (steps s e)) in
  allDates (hz := fixedHost offsetMs) (S (steps s e)) (mkRange (Some s) (Some e))
  = Some ds
  ∧ StronglySorted Z.lt ds
  ∧ ∀ d, d ∈ ds → s <= d <= e.
Proof.
  cbv zeta. split; [| split].
  - unfold allDates. cbn [start end_].
    by rewrite (allDatesLoop_fixed_host offsetMs _ (steps s e) s e []) by lia.
  - generalize (Z.of_nat (steps s e)). intros n.
    destruct (decide (n <= 0)) as [Hn | Hn]; [rewrite seqZ_nil by lia; constructor |].
    rewrite <- (Z2Nat.id n) by lia. generalize (Z.to_nat n). clear. intros n.
    induction n as [| n IH]; [constructor |].
    rewrite seqZ_S, fmap_app. apply StronglySorted_app_2; [| done | repeat constructor].
    intros x1 x2 Hx1 Hx2. apply list_elem_of_fmap in Hx1 as (k & -> & Hk).
    apply elem_of_seqZ in Hk. simpl in Hx2.
    apply list_elem_of_singleton in Hx2 as ->. unfold msPerDay. lia.
  - intros d Hd. apply list_elem_of_fmap in Hd as (k & -> & Hk).
    apply elem_of_seqZ in Hk. unfold steps in Hk.
    destruct (decide (s <= e)) as [Hse | Hse].
    + assert (0 <= (e - s) / msPerDay) by (apply Z.div_pos; unfold msPerDay; lia).
      assert (k <= (e - s) / msPerDay) by lia.
      assert (k * msPerDay <= e - s).
      { etrans; [apply Z.mul_le_mono_nonneg_r; [unfold msPerDay; lia | eassumption] |].
        rewrite Z.mul_comm. apply Z.mul_div_le. unfold msPerDay. lia. }
      unfold msPerDay in *. lia.
    + assert ((e - s) / msPerDay < 0)
        by (apply Z.div_lt_upper_bound; unfold msPerDay; lia).
      lia.
Qed.

(** ** Filtered dates and their events *)

Section FilterFacts.
Context `{hz : HostZone}.
Variable codes : list string.
Variable hbc : gmap string (list HolidayRecord).

Lemma highlighted_not_holiday filterType d :
  filterType ≠ "holiday"%string →
  highlighted codes hbc filterType d = filterDate codes hbc filterType d.
Proof.
  intros Hne. unfold highlighted, filterDate.
  destruct (String.eqb_spec filterType "holiday") as [-> | _]; [done |].
  destruct (String.eqb_spec filterType "workday") as [-> | _].
  - simpl. by destruct (isWorkday codes hbc d).
  - destruct (String.eqb_spec filterType "weekend") as [-> | _].
    + simpl. by destruct (isWeekend d).
    + done.
Qed.

Lemma filter_filter_same {A} (f g : A → bool) (l : list A) :
  (∀ x, f x = g x) → List.filter f (List.filter g l) = List.filter g l.
Proof.
  intros Hfg. induction l as [| x l IH]; [done |].
  simpl. destruct (g x) eqn:Hg; [| done].
  simpl. by rewrite Hfg, Hg, IH.
Qed.

End FilterFacts.

(** X7: under the "workday" and "weekend" filters (and any filter name
    other than "holiday") every filtered date gets its event: the start
    dates of the events are the filtered dates, in order. *)
Theorem filterEvents_all_filtered `{hz : HostZone} (codes : list string)
    (hbc : gmap string (list HolidayRecord)) (filterType : string)
    (allDates_ : list Z) :
  filterType ≠ "holiday"%string →
  map ev_start (filterEvents codes hbc filterType allDates_)
  = filteredDates codes hbc filterType allDates_.
Proof.
  intros Hne. unfold filterEvents. rewrite map_map. simpl. rewrite map_id.
  unfold filteredDates. apply filter_filter_same.
  intros d. by apply highlighted_not_holiday.
Qed.

Lemma filterEvents_all_filtered_witness :
  "weekend"%string ≠ "holiday"%string
  ∧ map ev_start (filterEvents (hz := utcHost) ["US"] (usOnly "Public") "weekend"
                               [t_2024_07_04; t_2024_07_04 + 2 * msPerDay])
    = filteredDates (hz := utcHost) ["US"] (usOnly "Public") "weekend"
                    [t_2024_07_04; t_2024_07_04 + 2 * msPerDay].
Proof.
  split; [discriminate |].
  apply (filterEvents_all_filtered (hz := utcHost)). discriminate.
Defined.

(** Membership among the "All: Holiday" events. *)
Lemma filterEvents_holiday_elem `{hz : HostZone} (codes : list string)
    (hbc : gmap string (list HolidayRecord)) (allDates_ : list Z) (d : Z) :
  d ∈ map ev_start (filterEvents codes hbc "holiday" allDates_)
  ↔ d ∈ allDates_
    ∧ (∀ code, code ∈ codes → hasRecordOn hbc code (toISOString_slice d))
    ∧ (∀ code, code ∈ codes → hasPublicRecordOn hbc code (moment_format d)).
Proof.
  unfold filterEvents. rewrite map_map. simpl. rewrite map_id.
  unfold filteredDates.
  rewrite !list_elem_of_In, !filter_In, <- list_elem_of_In.
  assert (Hh : highlighted codes hbc "holiday" d = isAllPublicHoliday codes hbc d).
  { unfold highlighted. by destruct (isAllPublicHoliday codes hbc d). }
  rewrite Hh. change (filterDate codes hbc "holiday" d) with (isHoliday codes hbc d).
  rewrite isHoliday_spec, isAllPublicHoliday_spec. tauto.
Qed.

(** X8: under the "holiday" filter a date of the view gets an "All:
    Holiday" event exactly when it passes both checks: every country code
    has a record, of any type, dated as the date's UTC day ([isHoliday]), and
    every country code has a record of type "Public" dated as the date's day
    in the host's zone ([isAllPublicHoliday]). *)
Theorem filterEvents_holiday `{hz : HostZone} (codes : list string)
    (hbc : gmap string (list HolidayRecord)) (allDates_ : list Z) (d : Z) :
  d ∈ map ev_start (filterEvents codes hbc "holiday" allDates_)
  ↔ d ∈ allDates_
    ∧ (∀ code, code ∈ codes → hasRecordOn hbc code (toISOString_slice d))
    ∧ (∀ code, code ∈ codes → hasPublicRecordOn hbc code (moment_format d)).
Proof. apply filterEvents_holiday_elem. Qed.



(** ** Awake hours as participants and the window change *)

Section AwakeMonotone.
Context `{mz : MomentTz}.

Lemma getCommonAwakeHours_anti (ps ps' : list Participant)
    (awakeStart awakeEnd date : Z) (tz : string) :
  ps ⊆ ps' →
  getCommonAwakeHours ps' awakeStart awakeEnd date tz
  ⊆ getCommonAwakeHours ps awakeStart awakeEnd date tz.
Proof.
  intros Hsub h. rewrite !getCommonAwakeHours_elem_of, !allAwake_spec.
  intros [Hh Hall]. split; [done |]. intros p Hp. apply Hall. by apply Hsub.
Qed.

End AwakeMonotone.

(** X10: adding a participant never adds a common awake hour, and removing
    one never takes a common awake hour away. *)
Theorem getCommonAwakeHours_add_remove `{mz : MomentTz}
    (selectedParticipants : list Participant) (participant : Participant)
    (id : string) (awakeStart awakeEnd date : Z) (tz : string) :
  getCommonAwakeHours (handleAddParticipant selectedParticipants participant)
                      awakeStart awakeEnd date tz
  ⊆ getCommonAwakeHours selectedParticipants awakeStart awakeEnd date tz
  ∧ getCommonAwakeHours selectedParticipants awakeStart awakeEnd date tz
    ⊆ getCommonAwakeHours (handleRemoveParticipant selectedParticipants id)
                          awakeStart awakeEnd date tz.
Proof.
  split; apply getCommonAwakeHours_anti.
  - unfold handleAddParticipant. destruct (negb _); [| done].
    intros p Hp. apply elem_of_app. by left.
  - unfold handleRemoveParticipant. intros p.
    rewrite !list_elem_of_In, filter_In. tauto.
Qed.

(** X11: widening the awake window keeps every common awake hour: with
    [awakeStart' <= awakeStart] and [awakeEnd <= awakeEnd'], the hours for
    the narrower window are among those for the wider one. *)
Theorem getCommonAwakeHours_window_mono `{mz : MomentTz}
    (selectedParticipants : list Participant)
    (awakeStart awakeEnd awakeStart' awakeEnd' date : Z) (tz : string) :
  awakeStart' <= awakeStart → awakeEnd <= awakeEnd' →
  getCommonAwakeHours selectedParticipants awakeStart awakeEnd date tz
  ⊆ getCommonAwakeHours selectedParticipants awakeStart' awakeEnd' date tz.
Proof.
  intros Hs He h. rewrite !getCommonAwakeHours_elem_of, !allAwake_spec.
  intros [Hh Hall]. split; [done |]. intros p Hp.
  specialize (Hall p Hp). lia.
Qed.

Lemma getCommonAwakeHours_window_mono_witness :
  8 <= 9 ∧ 18 <= 22
  ∧ getCommonAwakeHours (mz := fixedZones) [tokyo; phoenix] 9 18
                        t_2024_01_05_noon "UTC"
    ⊆ getCommonAwakeHours (mz := fixedZones) [tokyo; phoenix] 8 22
                          t_2024_01_05_noon "UTC".
Proof.
  split; [lia |]. split; [lia |].
  apply (getCommonAwakeHours_window_mono (mz := fixedZones)); lia.
Defined.

(** X12: with at least one participant the list below the progress bar
    and the bar itself agree: an hour is in [getCommonAwakeHours] exactly
    when it is one of 0..23 and the bar marks it. *)
Theorem getCommonAwakeHours_progressBar `{mz : MomentTz}
    (selectedParticipants : list Participant) (awakeStart awakeEnd date : Z)
    (tz : string) (h : Z) :
  selectedParticipants ≠ [] →
  (h ∈ getCommonAwakeHours selectedParticipants awakeStart awakeEnd date tz
   ↔ 0 <= h < 24
     ∧ progressBarAwake selectedParticipants awakeStart awakeEnd date tz h = true).
Proof.
  intros Hne. rewrite getCommonAwakeHours_elem_of. unfold progressBarAwake.
  destruct selectedParticipants as [| p ps]; [done |].
  cbv zeta. replace (0 <? Z.of_nat (length (p :: ps))) with true; [done |].
  symmetry. apply Z.ltb_lt. simpl. lia.
Qed.

Lemma getCommonAwakeHours_progressBar_witness :
  [tokyo; phoenix] ≠ []
  ∧ (0 ∈ getCommonAwakeHours (mz := fixedZones) [tokyo; phoenix] 8 22
                             t_2024_01_05_noon "UTC"
     ↔ 0 <= 0 < 24
       ∧ progressBarAwake (mz := fixedZones) [tokyo; phoenix] 8 22
                          t_2024_01_05_noon "UTC" 0 = true).
Proof.
  split; [discriminate |].
  apply (getCommonAwakeHours_progressBar (mz := fixedZones)). discriminate.
Defined.

(** ** The participant list, continued *)

(** X13: after an add the participant's id is in the list and after a
    remove the id is not; removing right after adding a participant whose id
    was not present gives back the list as it was. *)
Theorem registry_add_remove_roundtrip (selectedParticipants : list Participant)
    (participant : Participant) (id : string) :
  p_id participant ∈ map p_id (handleAddParticipant selectedParticipants participant)
  ∧ (id ∉ map p_id (handleRemoveParticipant selectedParticipants id))
  ∧ (p_id participant ∉ map p_id selectedParticipants →
     handleRemoveParticipant
       (handleAddParticipant selectedParticipants participant) (p_id participant)
     = selectedParticipants).
Proof.
  split; [| split].
  - destruct (decide (p_id participant ∈ map p_id selectedParticipants)) as [Hin | Hin].
    + by rewrite handleAddParticipant_present.
    + rewrite handleAddParticipant_absent by done.
      rewrite map_app, elem_of_app. right. by apply list_elem_of_singleton.
  - rewrite handleRemoveParticipant_ids. tauto.
  - intros Hin. rewrite handleAddParticipant_absent by done.
    unfold handleRemoveParticipant. rewrite List.filter_app. simpl.
    rewrite String.eqb_refl. simpl. rewrite app_nil_r.
    by apply handleRemoveParticipant_absent.
Qed.

(** ** [getYearsInRange] on a host without clock changes *)

(** X14: on a host without clock changes [getYearsInRange] returns for
    every pair of dates, within [steps] + 1 iterations; the result has no
    duplicates and holds exactly the calendar years of the instants [start],
    [start] + 1 day, ... that are not after [end]. *)
Theorem getYearsInRange_walk_years (offsetMs s e : Z) :
  ∃ years,
    getYearsInRange (hz := fixedHost offsetMs) (S (steps s e)) (Some s) (Some e)
    = Some years
    ∧ NoDup years
    ∧ ∀ y, y ∈ years
           ↔ ∃ k, 0 <= k ∧ s + k * msPerDay <= e
                  ∧ y = getFullYear (hz := fixedHost offsetMs) (s + k * msPerDay).
Proof. apply getYearsInRange_fixed_host. Qed.

(** X15: on a host without clock changes, when [start <= end] and the
    end's time of day is not before the start's (as for the ranges the
    calendar reports, whose ends are at or after local midnight of their
    day), the end date's year is among the years returned. *)
Theorem getYearsInRange_end_year_aligned (offsetMs s e : Z) (fuel : nat)
    (years : list Z) :
  s <= e →
  TimeWithinDay (LocalTime (hz := fixedHost offsetMs) s)
  <= TimeWithinDay (LocalTime (hz := fixedHost offsetMs) e) →
  getYearsInRange (hz := fixedHost offsetMs) fuel (Some s) (Some e) = Some years →
  getFullYear (hz := fixedHost offsetMs) e ∈ years.
Proof. apply getYearsInRange_contains_end_year. Qed.

Lemma getYearsInRange_end_year_aligned_witness :
  t_2024_12_30 <= t_2025_01_01
  ∧ TimeWithinDay (LocalTime (hz := fixedHost 0) t_2024_12_30)
    <= TimeWithinDay (LocalTime (hz := fixedHost 0) t_2025_01_01)
  ∧ getYearsInRange (hz := fixedHost 0) 10 (Some t_2024_12_30) (Some t_2025_01_01)
    = Some [2024; 2025]
  ∧ getFullYear (hz := fixedHost 0) t_2025_01_01 ∈ [2024; 2025].
Proof.
  assert (H1 : t_2024_12_30 <= t_2025_01_01) by (vm_compute; discriminate).
  assert (H2 : TimeWithinDay (LocalTime (hz := fixedHost 0) t_2024_12_30)
               <= TimeWithinDay (LocalTime (hz := fixedHost 0) t_2025_01_01))
    by (vm_compute; discriminate).
  assert (H3 : getYearsInRange (hz := fixedHost 0) 10 (Some t_2024_12_30)
                               (Some t_2025_01_01) = Some [2024; 2025])
    by (vm_compute; reflexivity).
  split; [exact H1 |]. split; [exact H2 |]. split; [exact H3 |].
  exact (getYearsInRange_end_year_aligned 0 _ _ _ _ H1 H2 H3).
Defined.

(** ** The fetch effect, continued *)

Section FetchMoreFacts.
Implicit Types (cache : gmap string (gmap Z (list HolidayRecord))).
Implicit Types (tasks : list Request) (codes : list string) (years : list Z).

Lemma yearsForEach_elem_of_iff cache code years tasks req :
  req ∈ yearsForEach cache code years tasks
  ↔ req ∈ tasks ∨ (req.2 = code ∧ req.1 ∈ years ∧ cached cache code req.1 = None).
Proof.
  split; [apply yearsForEach_elem_of |].
  unfold yearsForEach. revert tasks.
  induction years as [| year years IH]; intros tasks; simpl.
  - intros [Hin | (_ & Hy & _)]; [done | by apply elem_of_nil in Hy].
  - intros [Hin | (Hc & Hy & Hn)]; apply IH.
    + left. destruct (cached cache code year); [done |].
      apply elem_of_app. by left.
    + apply elem_of_cons in Hy as [Hy | Hy].
      * left. rewrite <- Hy, Hn. apply elem_of_app. right.
        apply list_elem_of_singleton. destruct req as [y c]. simpl in *.
        by subst.
      * right. done.
Qed.

Lemma codesForEach_fold_iff codes years cache tasks cache' tasks' :
  fold_left (λ '(cache, tasks) code,
               let cache' :=
                 match cache !! code with
                 | None => <[code := ∅]> cache
                 | Some _ => cache
                 end in
               (cache', yearsForEach cache' code years tasks))
            codes (cache, tasks) = (cache', tasks') →
  ∀ req, req ∈ tasks'
         ↔ req ∈ tasks
           ∨ (req.2 ∈ codes ∧ req.1 ∈ years ∧ cached cache req.2 req.1 = None).
Proof.
  revert cache tasks.
  induction codes as [| code codes IH]; intros cache tasks; simpl.
  - intros [= <- <-] req. split; [by left |].
    intros [Hin | (Hc & _)]; [done | by apply elem_of_nil in Hc].
  - set (cache1 := match cache !! code with
                   | None => <[code := ∅]> cache
                   | Some _ => cache
                   end).
    assert (Hsame : ∀ c y, cached cache1 c y = cached cache c y).
    { intros c y. subst cache1.
      destruct (cache !! code) eqn:Hc; [done |]. by apply cached_insert_empty. }
    intros Hrun req. rewrite (IH _ _ Hrun req), yearsForEach_elem_of_iff.
    rewrite !Hsame, elem_of_cons. split.
    + intros [[Hin | (Hc & Hy & Hn)] | (Hc & Hy & Hn)].
      * by left.
      * right. rewrite Hc. split; [by left | done].
      * right. split; [by right | done].
    + intros [Hin | ([Hc | Hc] & Hy & Hn)].
      * by left; left.
      * left. right. by rewrite <- Hc.
      * right. done.
Qed.

Lemma cached_settle code year data refs c y :
  cached (holidaysCache (settle code year data refs)) c y
  = if bool_decide (code = c ∧ year = y) then Some data
    else cached (holidaysCache refs) c y.
Proof.
  unfold settle, cached. simpl.
  destruct (decide (code = c)) as [<- | Hc].
  - rewrite lookup_insert_eq. simpl.
    destruct (decide (year = y)) as [<- | Hy].
    + rewrite lookup_insert_eq. by rewrite bool_decide_eq_true_2.
    + rewrite lookup_insert_ne by done.
      rewrite bool_decide_eq_false_2 by tauto.
      by destruct (holidaysCache refs !! code).
  - rewrite lookup_insert_ne by done. by rewrite bool_decide_eq_false_2 by tauto.
Qed.

Lemma cached_settleAll_keeps settled refs c y :
  is_Some (cached (holidaysCache refs) c y) →
  is_Some (cached (holidaysCache (settleAll settled refs)) c y).
Proof.
  unfold settleAll. revert refs.
  induction settled as [| [[code year] data] settled IH]; intros refs Hsome;
    [done |].
  simpl. apply IH. rewrite cached_settle. by case_bool_decide.
Qed.

Lemma cached_settleAll_settled settled refs c y data :
  (c, y, data) ∈ settled →
  is_Some (cached (holidaysCache (settleAll settled refs)) c y).
Proof.
  unfold settleAll. revert refs.
  induction settled as [| [[code year] data'] settled IH]; intros refs Hin.
  - by apply elem_of_nil in Hin.
  - simpl. apply elem_of_cons in Hin as [[= <- <- <-] | Hin].
    + apply cached_settleAll_keeps. rewrite cached_settle.
      by rewrite bool_decide_eq_true_2.
    + by apply IH.
Qed.

Lemma mergeByCountry_years cache code years acc :
  fold_left (λ acc year,
               match cached cache code year with
               | Some hs => acc ++ hs
               | None => acc
               end) years acc
  = acc ++ concat (map (λ year, default [] (cached cache code year)) years).
Proof.
  revert acc. induction years as [| year years IH]; intros acc; simpl.
  - by rewrite app_nil_r.
  - rewrite IH. destruct (cached cache code year); simpl; [| done].
    by rewrite app_assoc.
Qed.

Lemma insert_fold_lookup {V} (f : string → V) codes (m : gmap string V) c :
  fold_left (λ m code, <[code := f code]> m) codes m !! c
  = if bool_decide (c ∈ codes) then Some (f c) else m !! c.
Proof.
  revert m. induction codes as [| code codes IH]; intros m; simpl; [done |].
  rewrite IH. destruct (decide (c = code)) as [-> | Hne].
  - rewrite lookup_insert_eq.
    rewrite (bool_decide_eq_true_2 (code ∈ code :: codes)) by apply list_elem_of_here.
    by case_bool_decide.
  - rewrite lookup_insert_ne by done.
    case_bool_decide as Hc.
    + by rewrite bool_decide_eq_true_2 by by apply list_elem_of_further.
    + rewrite bool_decide_eq_false_2; [done |].
      intros Hin. apply elem_of_cons in Hin as [? | ?]; done.
Qed.

End FetchMoreFacts.

(** X16: a run of the fetch effect that passes its guards (a range, at
    least one country code, a key different from the last one) issues a
    request for exactly the (country code, year) pairs of the run that have
    no cache entry, and stores the run's key in [lastFetchKey]. *)
Theorem fetchEffect_requests `{hz : HostZone} (fuel : nat) (s e : Z)
    (codes : list string) (years : list Z) (refs refs' : FetchRefs)
    (reqs : list Request) :
  codes ≠ [] →
  getYearsInRange fuel (Some s) (Some e) = Some years →
  lastFetchKey refs ≠ fetchKeyOf codes years →
  fetchEffect fuel (mkRange (Some s) (Some e)) codes refs = Some (reqs, refs') →
  lastFetchKey refs' = fetchKeyOf codes years
  ∧ ∀ year code, (year, code) ∈ reqs
                 ↔ code ∈ codes ∧ year ∈ years
                   ∧ cached (holidaysCache refs) code year = None.
Proof.
  intros Hne Hyears Hkey. unfold fetchEffect. cbn [start end_].
  rewrite bool_decide_eq_false_2 by (by destruct codes).
  rewrite Hyears. cbn [mbind option_bind].
  destruct (String.eqb_spec (lastFetchKey refs) (fetchKeyOf codes years));
    [done |].
  destruct (codesForEach codes years (holidaysCache refs)) as [cache' tasks] eqn:Hfor.
  intros [= <- <-]. split; [done |]. intros year code.
  unfold codesForEach in Hfor.
  rewrite (codesForEach_fold_iff _ _ _ _ _ _ Hfor (year, code)). simpl.
  split; [| by right]. intros [Hin | H]; [by apply elem_of_nil in Hin | done].
Qed.

Lemma fetchEffect_requests_witness :
  ∃ reqs refs',
    ["US"; "JP"] ≠ ([] : list string)
    ∧ getYearsInRange (hz := utcHost) 10 (Some t_2024_12_30) (Some t_2025_01_01)
      = Some [2024; 2025]
    ∧ lastFetchKey initialRefs ≠ fetchKeyOf ["US"; "JP"] [2024; 2025]
    ∧ fetchEffect (hz := utcHost) 10 (mkRange (Some t_2024_12_30) (Some t_2025_01_01))
                  ["US"; "JP"] initialRefs = Some (reqs, refs')
    ∧ lastFetchKey refs' = fetchKeyOf ["US"; "JP"] [2024; 2025]
    ∧ ∀ year code, (year, code) ∈ reqs
                   ↔ code ∈ ["US"; "JP"] ∧ year ∈ [2024; 2025]
                     ∧ cached (holidaysCache initialRefs) code year = None.
Proof.
  eexists. eexists.
  assert (H1 : ["US"; "JP"] ≠ ([] : list string)) by discriminate.
  assert (H2 : getYearsInRange (hz := utcHost) 10 (Some t_2024_12_30)
                               (Some t_2025_01_01) = Some [2024; 2025])
    by (vm_compute; reflexivity).
  assert (H3 : lastFetchKey initialRefs ≠ fetchKeyOf ["US"; "JP"] [2024; 2025])
    by (vm_compute; discriminate).
  split; [exact H1 |]. split; [exact H2 |]. split; [exact H3 |].
  match goal with
  | |- ?run ∧ _ => assert (Hrun : run) by (vm_compute; reflexivity)
  end.
  split; [exact Hrun |].
  exact (fetchEffect_requests (hz := utcHost) _ _ _ _ _ _ _ _ H1 H2 H3 Hrun).
Defined.

(** The cache reads the same after a run. *)
Lemma fetchEffect_cache_same `{hz : HostZone} (fuel : nat)
    (calendarRange : CalendarRange) (codes : list string)
    (refs refs' : FetchRefs) (reqs : list Request) :
  fetchEffect fuel calendarRange codes refs = Some (reqs, refs') →
  ∀ code year,
    cached (holidaysCache refs') code year = cached (holidaysCache refs) code year.
Proof.
  unfold fetchEffect. intros Hrun code year.
  destruct (start calendarRange) as [s |]; [| by injection Hrun as _ <-].
  destruct (end_ calendarRange) as [e |]; [| by injection Hrun as _ <-].
  case_bool_decide; [by injection Hrun as _ <- |].
  destruct (getYearsInRange fuel (Some s) (Some e)) as [years |]; [| done].
  simpl in Hrun.
  destruct (String.eqb _ _); [by injection Hrun as _ <- |].
  destruct (codesForEach codes years (holidaysCache refs)) as [cache' tasks] eqn:Hfor.
  injection Hrun as _ <-. simpl.
  by apply codesForEach_spec in Hfor as [Hcache _].
Qed.

(** X17: a run of the fetch effect changes no cached list: it may give a
    country code an empty object, but every (country code, year) lookup of
    the cache reads the same before and after; only settled requests fill
    the cache. *)
Theorem fetchEffect_keeps_cache `{hz : HostZone} (fuel : nat)
    (calendarRange : CalendarRange) (codes : list string)
    (refs refs' : FetchRefs) (reqs : list Request) :
  fetchEffect fuel calendarRange codes refs = Some (reqs, refs') →
  ∀ code year,
    cached (holidaysCache refs') code year = cached (holidaysCache refs) code year.
Proof. apply fetchEffect_cache_same. Qed.

Lemma fetchEffect_keeps_cache_witness :
  ∃ reqs refs',
    fetchEffect (hz := utcHost) 10 (mkRange (Some t_2024_12_30) (Some t_2025_01_01))
                ["US"; "JP"] (settle "US" 2024 [independenceDay "Public"] initialRefs)
    = Some (reqs, refs')
    ∧ reqs = [(2025, "US"); (2024, "JP"); (2025, "JP")]
    ∧ ∀ code year,
        cached (holidaysCache refs') code year
        = cached (holidaysCache
                    (settle "US" 2024 [independenceDay "Public"] initialRefs))
                 code year.
Proof.
  eexists. eexists.
  match goal with
  | |- ?run ∧ _ => assert (Hrun : run) by (vm_compute; reflexivity)
  end.
  split; [exact Hrun |]. split; [reflexivity |].
  exact (fetchEffect_keeps_cache (hz := utcHost) _ _ _ _ _ _ Hrun).
Defined.

(** X18: a settled request writes its own slot only: afterwards the slot
    of its (country code, year) holds the delivered list, every other slot
    reads as before and [lastFetchKey] is untouched; and no sequence of
    settled requests ever empties a slot that was filled. *)
Theorem settle_slot (code : string) (year : Z) (data : list HolidayRecord)
    (refs : FetchRefs) (settled : list (string * Z * list HolidayRecord)) :
  (∀ c y,
     cached (holidaysCache (settle code year data refs)) c y
     = if bool_decide (code = c ∧ year = y) then Some data
       else cached (holidaysCache refs) c y)
  ∧ lastFetchKey (settle code year data refs) = lastFetchKey refs
  ∧ ∀ c y, is_Some (cached (holidaysCache refs) c y) →
           is_Some (cached (holidaysCache (settleAll settled refs)) c y).
Proof.
  split; [intros c y; apply cached_settle |]. split; [done |].
  intros c y. apply cached_settleAll_keeps.
Qed.

(** X19: once every request issued by a run has settled, the cache has an
    entry for every (country code, year) pair of the run, whatever else
    settled in between. *)
Theorem fetchEffect_settled_complete `{hz : HostZone} (fuel : nat) (s e : Z)
    (codes : list string) (years : list Z) (refs refs' : FetchRefs)
    (reqs : list Request) (settled : list (string * Z * list HolidayRecord)) :
  codes ≠ [] →
  getYearsInRange fuel (Some s) (Some e) = Some years →
  lastFetchKey refs ≠ fetchKeyOf codes years →
  fetchEffect fuel (mkRange (Some s) (Some e)) codes refs = Some (reqs, refs') →
  (∀ year code, (year, code) ∈ reqs → ∃ data, (code, year, data) ∈ settled) →
  ∀ code year, code ∈ codes → year ∈ years →
    is_Some (cached (holidaysCache (settleAll settled refs')) code year).
Proof.
  intros Hne Hyears Hkey Hrun Hsettled code year Hc Hy.
  pose proof (fetchEffect_cache_same _ _ _ _ _ _ Hrun code year) as Hsame.
  destruct (cached (holidaysCache refs) code year) as [hs |] eqn:Hcached.
  - apply cached_settleAll_keeps. by rewrite Hsame.
  - unfold fetchEffect in Hrun. cbn [start end_] in Hrun.
    rewrite bool_decide_eq_false_2 in Hrun by (by destruct codes).
    rewrite Hyears in Hrun. cbn [mbind option_bind] in Hrun.
    destruct (String.eqb_spec (lastFetchKey refs) (fetchKeyOf codes years));
      [done |].
    destruct (codesForEach codes years (holidaysCache refs))
      as [cache' tasks] eqn:Hfor.
    injection Hrun as <- <-. unfold codesForEach in Hfor.
    destruct (Hsettled year code) as [data Hdata].
    { rewrite (codesForEach_fold_iff _ _ _ _ _ _ Hfor (year, code)). by right. }
    by eapply cached_settleAll_settled.
Qed.

Lemma fetchEffect_settled_complete_witness :
  ∃ reqs refs',
    fetchEffect (hz := utcHost) 10 (mkRange (Some t_2024_12_30) (Some t_2025_01_01))
                ["US"] initialRefs = Some (reqs, refs')
    ∧ reqs = [(2024, "US"); (2025, "US")]
    ∧ ∀ code year, code ∈ ["US"] → year ∈ [2024; 2025] →
        is_Some (cached (holidaysCache
                           (settleAll [("US", 2025, []);
                                       ("US", 2024, [independenceDay "Public"])]
                                      refs')) code year).
Proof.
  assert (H1 : ["US"] ≠ ([] : list string)) by discriminate.
  assert (H2 : getYearsInRange (hz := utcHost) 10 (Some t_2024_12_30)
                               (Some t_2025_01_01) = Some [2024; 2025])
    by (vm_compute; reflexivity).
  assert (H3 : lastFetchKey initialRefs ≠ fetchKeyOf ["US"] [2024; 2025])
    by (vm_compute; discriminate).
  assert (H5 : ∀ (year : Z) (code : string),
             (year, code) ∈ [(2024, "US"%string); (2025, "US"%string)] →
             ∃ data, (code, year, data)
                     ∈ [("US"%string, 2025, []);
                        ("US"%string, 2024, [independenceDay "Public"])]).
  { intros year code Hin. apply elem_of_cons in Hin as [Heq | Hin].
    - injection Heq as -> ->. eexists.
      apply list_elem_of_further, list_elem_of_here.
    - apply elem_of_cons in Hin as [Heq | Hin].
      + injection Heq as -> ->. eexists. apply list_elem_of_here.
      + exfalso. exact (not_elem_of_nil _ Hin). }
  eexists. eexists.
  match goal with
  | |- ?run ∧ _ => assert (Hrun : run) by (vm_compute; reflexivity)
  end.
  split; [exact Hrun |]. split; [reflexivity |].
  exact (fetchEffect_settled_complete (hz := utcHost) _ _ _ _ _ _ _ _ _
           H1 H2 H3 Hrun H5).
Defined.

(** X20: the table handed to [setHolidaysByCountry] has an entry for
    exactly the country codes of the run, and a country's entry is the
    concatenation, in the order of the years, of its cached lists (a year
    without cache entry contributes nothing); so a record is listed for a
    country exactly when it is cached under one of the years of the run. *)
Theorem mergeByCountry_spec (codes : list string) (years : list Z)
    (cache : gmap string (gmap Z (list HolidayRecord))) (code : string) :
  mergeByCountry codes years cache !! code
  = (if bool_decide (code ∈ codes)
     then Some (concat (map (λ year, default [] (cached cache code year)) years))
     else None)
  ∧ ∀ h, h ∈ holidaysOf (mergeByCountry codes years cache) code
         ↔ code ∈ codes
           ∧ ∃ year hs, year ∈ years ∧ cached cache code year = Some hs ∧ h ∈ hs.
Proof.
  assert (Hlook : mergeByCountry codes years cache !! code
                  = if bool_decide (code ∈ codes)
                    then Some (concat (map (λ year, default [] (cached cache code year))
                                           years))
                    else None).
  { unfold mergeByCountry.
    rewrite (insert_fold_lookup
               (λ code, fold_left (λ acc year,
                                     match cached cache code year with
                                     | Some hs => acc ++ hs
                                     | None => acc
                                     end) years [])).
    case_bool_decide; [| apply lookup_empty].
    by rewrite mergeByCountry_years. }
  split; [done |]. intros h. unfold holidaysOf. rewrite Hlook.
  case_bool_decide as Hc; simpl.
  - rewrite list_elem_of_In, in_concat. setoid_rewrite in_map_iff. split.
    + intros (hs & (year & <- & Hy) & Hh). split; [done |].
      destruct (cached cache code year) as [hs' |] eqn:Hcached; [| done].
      exists year, hs'. by rewrite !list_elem_of_In.
    + intros (_ & year & hs & Hy & Hcached & Hh).
      exists hs. split; [| by apply list_elem_of_In].
      exists year. rewrite Hcached. split; [done | by apply list_elem_of_In].
  - split; [intros Hh; by apply elem_of_nil in Hh | tauto].
Qed.

(** ** The map picker *)

Section PickerFacts.
Variable inPolygon : Feature → bool.

Lemma js_or_truthy a b s : js_or a (Some b) = Some s → truthy b = true → s ≠ ""%string.
Proof.
  unfold js_or. intros Hor Hb.
  destruct a as [a |].
  - destruct (truthy a) eqn:Ha.
    + injection Hor as <-. by apply truthy_ne.
    + injection Hor as <-. by apply truthy_ne.
  - injection Hor as <-. by apply truthy_ne.
Qed.

Lemma featureName_nonempty feature : featureName feature ≠ ""%string.
Proof.
  unfold featureName.
  destruct (js_or _ (Some "Unknown")) as [s |] eqn:Hor; [| done].
  simpl. by eapply js_or_truthy.
Qed.

Lemma split_space_0_noSpace s : noSpace s = true → split_space_0 s = s.
Proof.
  induction s as [| c s IH]; [done |]. simpl.
  intros Hs. apply andb_true_iff in Hs as [Hc Hs].
  apply negb_true_iff in Hc. rewrite Hc. by rewrite IH.
Qed.

Lemma split_space_0_app_space s rest :
  noSpace s = true → split_space_0 (s +:+ String " "%char rest) = s.
Proof.
  induction s as [| c s IH]; simpl; [done |].
  intros Hs. apply andb_true_iff in Hs as [Hc Hs].
  apply negb_true_iff in Hc. rewrite Hc. by rewrite IH.
Qed.

End PickerFacts.

(** X21: the two country lookups agree and never return an empty name:
    [getCountryRegionWithISO] reports the name [getCountryRegion] reports,
    the name is never the empty string, and when no feature with a polygon
    geometry contains the point the answer is "Unknown" with an empty
    code. *)
Theorem getCountryRegion_agree (inPolygon : Feature → bool)
    (features : list Feature) :
  co_name (getCountryRegionWithISO inPolygon features)
  = getCountryRegion inPolygon features
  ∧ getCountryRegion inPolygon features ≠ ""%string
  ∧ ((∀ feature, feature ∈ features → isCandidate inPolygon feature = false) →
     getCountryRegionWithISO inPolygon features
     = {| co_name := "Unknown"; co_iso2 := "" |}).
Proof.
  induction features as [| feature rest IH]; simpl.
  - split; [done |]. split; [done |]. done.
  - destruct IH as (Hname & Hne & Hnone).
    destruct (isCandidate inPolygon feature) eqn:Hcand; simpl.
    + split; [done |]. split; [apply featureName_nonempty |].
      intros Hall. specialize (Hall feature (list_elem_of_here _ _)). congruence.
    + split; [done |]. split; [done |].
      intros Hall. apply Hnone. intros f Hf. apply Hall.
      by apply list_elem_of_further.
Qed.

(** X22: the zone name survives the trip through the participant record:
    for a detected zone name without a space (as IANA names are), cutting
    the [timezone] field of the built participant at the first space gives
    the name back, and [timezones] of that participant alone is that name;
    when no zone was detected the field carries the advisory text and the
    cut gives "UTC". *)
Theorem clickParticipant_zone (inPolygon : Feature → bool)
    (features : list Feature) (lat lng time tz : string) :
  noSpace tz = true → tz ≠ ""%string →
  split_space_0 (p_timezone (clickParticipant inPolygon features lat lng
                                              (Some tz) time)) = tz
  ∧ timezones [clickParticipant inPolygon features lat lng (Some tz) time] = [tz]
  ∧ split_space_0 (p_timezone (clickParticipant inPolygon features lat lng
                                                None time)) = "UTC"%string
  ∧ split_space_0 (p_timezone (clickParticipant inPolygon features lat lng
                                                (Some "") time)) = "UTC"%string.
Proof.
  intros Hns Hne. apply truthy_ne in Hne as Ht.
  assert (Hcut : split_space_0 (p_timezone (clickParticipant inPolygon features
                                              lat lng (Some tz) time)) = tz).
  { unfold clickParticipant. simpl. rewrite Ht. simpl.
    replace (tz +:+ "") with tz; [by apply split_space_0_noSpace |].
    clear. induction tz as [| c s IH]; [done |].
    change (String c s +:+ "") with (String c (s +:+ "")). by f_equal. }
  split; [done |]. split; [| done].
  unfold timezones. cbn [map]. rewrite Hcut.
  rewrite filter_cons, filter_nil. rewrite decide_True by done.
  reflexivity.
Qed.

Lemma clickParticipant_zone_witness :
  noSpace "Asia/Tokyo" = true ∧ "Asia/Tokyo"%string ≠ ""%string
  ∧ split_space_0 (p_timezone (clickParticipant (λ _, false) [] "35.68" "139.69"
                                                (Some "Asia/Tokyo") "09:00, Fri"))
    = "Asia/Tokyo"%string.
Proof.
  split; [reflexivity |]. split; [discriminate |].
  apply (clickParticipant_zone (λ _, false) [] "35.68" "139.69" "09:00, Fri"
                               "Asia/Tokyo"); [reflexivity | discriminate].
Defined.

(** ** The calendar range *)

(** X23: the calendar range always has both ends or none: the range set
    by [handleRangeChange] from an array or from an object has both ends set
    or both missing if the previous one had, and after the effect that
    installs the current month both ends are set; that effect leaves a
    complete range alone, so running it twice is running it once. *)
Theorem calendarRange_both_or_none `{hz : HostZone} (range : RangeArg)
    (calendarRange : CalendarRange) (today : Z) :
  let complete r := is_Some (start r) ∧ is_Some (end_ r) in
  let unset r := start r = None ∧ end_ r = None in
  (complete calendarRange ∨ unset calendarRange →
   complete (handleRangeChange range calendarRange)
   ∨ unset (handleRangeChange range calendarRange))
  ∧ complete (initialRangeEffect today calendarRange)
  ∧ (complete calendarRange → initialRangeEffect today calendarRange = calendarRange)
  ∧ initialRangeEffect today (initialRangeEffect today calendarRange)
    = initialRangeEffect today calendarRange.
Proof.
  cbv zeta. split; [| split; [| split]].
  - intros Hprev. destruct range as [dates | [s |] [e |] |]; simpl; try done.
    + destruct dates as [| d dates]; [by right |]. left. split; [by eexists |].
      simpl. rewrite Nat.sub_0_r.
      apply lookup_lt_is_Some. simpl. lia.
    + left. split; by eexists.
  - unfold initialRangeEffect.
    destruct calendarRange as [[s |] [e |]]; simpl; split; by eexists.
  - intros [[s Hs] [e He]]. unfold initialRangeEffect. by rewrite Hs, He.
  - unfold initialRangeEffect.
    by destruct calendarRange as [[s |] [e |]].
Qed.

(** ** Months of the calendar *)

Section CalendarMonths.

Lemma yearStart_bounds doe :
  0 <= doe < 146097 →
  let yoe := (doe - doe / 1460 + doe / 36524 - doe / 146096) / 365 in
  0 <= yoe < 400 ∧ yearStart yoe <= doe
  ∧ (doe < yearStart (yoe + 1) ∨ (doe = 146096 ∧ yoe = 399)).
Proof.
  intros Hd yoe. subst yoe. unfold yearStart.
  Z.to_euclidean_division_equations; lia.
Qed.

Lemma yearStart_next a : yearStart a + 365 <= yearStart (a + 1) <= yearStart a + 366.
Proof. unfold yearStart. Z.to_euclidean_division_equations; lia. Qed.

Lemma yearStart_mono a b : a <= b → yearStart a <= yearStart b.
Proof. unfold yearStart. intros. Z.to_euclidean_division_equations; lia. Qed.

Lemma marchDay_era y' :
  marchDay y' = (y' / 400) * 146097 + yearStart (y' mod 400) - 719468.
Proof. unfold marchDay, yearStart. Z.to_euclidean_division_equations; lia. Qed.

Lemma marchDay_next a : marchDay a + 365 <= marchDay (a + 1) <= marchDay a + 366.
Proof. unfold marchDay. Z.to_euclidean_division_equations; lia. Qed.

Lemma marchDay_mono a b : a <= b → marchDay a <= marchDay b.
Proof. unfold marchDay. intros. Z.to_euclidean_division_equations; lia. Qed.

Lemma monthStart_bounds doy :
  0 <= doy < 366 →
  let mp := (5 * doy + 2) / 153 in
  0 <= mp <= 11 ∧ monthStart mp <= doy < monthStart (mp + 1).
Proof. intros Hd mp. subst mp. unfold monthStart. Z.to_euclidean_division_equations; lia. Qed.

Lemma monthStart_unique doy mp :
  0 <= mp <= 11 → monthStart mp <= doy < monthStart (mp + 1) →
  (5 * doy + 2) / 153 = mp.
Proof. unfold monthStart. intros. Z.to_euclidean_division_equations; lia. Qed.

(** The pieces of [civil_from_days z]. *)
Lemma civil_from_days_decompose z :
  ∃ y' mp d,
    0 <= mp <= 11 ∧ 1 <= d
    ∧ z = marchDay y' + monthStart mp + d - 1
    ∧ z < marchDay y' + monthStart (mp + 1)
    ∧ z < marchDay (y' + 1)
    ∧ civil_from_days z = civilOf y' mp d.
Proof.
  unfold civil_from_days. cbv zeta.
  set (zz := z + 719468). set (era := zz / 146097).
  set (doe := zz - era * 146097).
  assert (Hdoe : 0 <= doe < 146097).
  { subst doe era. Z.to_euclidean_division_equations; lia. }
  destruct (yearStart_bounds doe Hdoe) as (Hy & Hlo & Hhi). cbv zeta in Hy, Hlo, Hhi.
  set (yoe := (doe - doe / 1460 + doe / 36524 - doe / 146096) / 365) in *.
  assert (Hys : yoe * 365 + yoe / 4 - yoe / 100 = yearStart yoe) by (unfold yearStart; lia).
  set (doy := doe - (365 * yoe + yoe / 4 - yoe / 100)).
  assert (Hdoy : doy = doe - yearStart yoe) by (unfold yearStart; subst doy; lia).
  pose proof (yearStart_next yoe) as Hnext.
  assert (Hy400 : yearStart 400 = 146096) by reflexivity.
  assert (Hdoyb : 0 <= doy < 366).
  { destruct Hhi as [Hhi | [Hhi Hy399]]; [lia |].
    rewrite Hy399 in Hdoy. change (yearStart 399) with 145731 in Hdoy. lia. }
  destruct (monthStart_bounds doy Hdoyb) as (Hmp & Hms). cbv zeta in Hmp, Hms.
  set (mp := (5 * doy + 2) / 153) in *.
  exists (yoe + era * 400), mp, (doy - (153 * mp + 2) / 5 + 1).
  assert (Hmarch : marchDay (yoe + era * 400) = era * 146097 + yearStart yoe - 719468).
  { rewrite marchDay_era.
    replace ((yoe + era * 400) / 400) with era by (Z.to_euclidean_division_equations; lia).
    replace ((yoe + era * 400) mod 400) with yoe by (Z.to_euclidean_division_equations; lia).
    done. }
  fold (monthStart mp). 
  split; [done |]. split; [lia |]. split; [subst doe zz; lia |].
  split; [subst doe zz; lia |]. split.
  - assert (yoe = 399 ∨ yoe < 399) as [Hy399 | Hlt] by lia.
    + replace (yoe + era * 400 + 1) with ((era + 1) * 400) by lia.
      rewrite marchDay_era.
      replace ((era + 1) * 400 / 400) with (era + 1) by (Z.to_euclidean_division_equations; lia).
      replace (((era + 1) * 400) mod 400) with 0 by (Z.to_euclidean_division_equations; lia).
      change (yearStart 0) with 0. subst doe zz. lia.
    + replace (yoe + era * 400 + 1) with ((yoe + 1) + era * 400) by lia.
      rewrite marchDay_era.
      replace ((yoe + 1 + era * 400) / 400) with era by (Z.to_euclidean_division_equations; lia).
      replace ((yoe + 1 + era * 400) mod 400) with (yoe + 1) by (Z.to_euclidean_division_equations; lia).
      assert (doe < yearStart (yoe + 1)) by (destruct Hhi as [Hhi | [_ Hhi]]; lia).
      subst doe zz. lia.
  - unfold civilOf. destruct (Z.ltb_spec mp 10) as [Hlt | Hge].
    + rewrite (proj2 (Z.leb_gt (mp + 3) 2)) by lia. reflexivity.
    + rewrite (proj2 (Z.leb_le (mp - 9) 2)) by lia. reflexivity.
Qed.

(** Conversely, a day inside the interval of a month decodes to it. *)
Lemma civil_from_days_unique z y' mp d :
  0 <= mp <= 11 → 1 <= d →
  z = marchDay y' + monthStart mp + d - 1 →
  z < marchDay y' + monthStart (mp + 1) →
  z < marchDay (y' + 1) →
  civil_from_days z = civilOf y' mp d.
Proof.
  intros Hmp Hd Hz Hm Hy.
  destruct (civil_from_days_decompose z)
    as (y1 & mp1 & d1 & Hmp1 & Hd1 & Hz1 & Hm1 & Hy1 & ->).
  assert (Hms : ∀ a, 0 <= a <= 11 → 0 <= monthStart a ∧ monthStart a < monthStart (a + 1))
    by (intros a Ha; unfold monthStart; Z.to_euclidean_division_equations; lia).
  assert (Hmono : ∀ a b, 0 <= a → a <= b → monthStart a <= monthStart b)
    by (intros a b Ha Hab; unfold monthStart; Z.to_euclidean_division_equations; lia).
  assert (y1 = y') as ->.
  { destruct (Z.lt_trichotomy y1 y') as [Hlt | [Heq | Hgt]]; [| done |].
    - pose proof (marchDay_mono (y1 + 1) y' ltac:(lia)).
      pose proof (Hms mp Hmp). lia.
    - pose proof (marchDay_mono (y' + 1) y1 ltac:(lia)).
      pose proof (Hms mp1 Hmp1). lia. }
  assert (mp1 = mp) as ->.
  { destruct (Z.lt_trichotomy mp1 mp) as [Hlt | [Heq | Hgt]]; [| done |].
    - pose proof (Hmono (mp1 + 1) mp ltac:(lia) ltac:(lia)). lia.
    - pose proof (Hmono (mp + 1) mp1 ltac:(lia) ltac:(lia)). lia. }
  f_equal. lia.
Qed.

(** [days_from_civil] in terms of the year and month starts. *)
Lemma days_from_civil_march y m d :
  1 <= m <= 12 →
  days_from_civil y m d
  = marchDay (if m <=? 2 then y - 1 else y)
    + monthStart (if 2 <? m then m - 3 else m + 9) + d - 1.
Proof.
  intros Hm. unfold days_from_civil. cbv zeta.
  rewrite marchDay_era. unfold yearStart, monthStart.
  set (y' := if m <=? 2 then y - 1 else y).
  set (mp := if 2 <? m then m - 3 else m + 9).
  replace (y' - y' / 400 * 400) with (y' mod 400)
    by (Z.to_euclidean_division_equations; lia).
  lia.
Qed.

Lemma monthStart_values :
  monthStart 0 = 0 ∧ monthStart 11 = 337 ∧ monthStart 12 = 367.
Proof. done. Qed.

Lemma monthStart_mono a b : 0 <= a → a <= b → monthStart a <= monthStart b.
Proof. unfold monthStart. intros. Z.to_euclidean_division_equations; lia. Qed.

(** The first day of the month of [civilOf y' mp _], and of the next. *)
Lemma month_first y' mp d :
  0 <= mp <= 11 →
  let '(y, m, _) := civilOf y' mp d in
  days_from_civil y m 1 = marchDay y' + monthStart mp
  ∧ days_from_civil (y + m / 12) (m mod 12 + 1) 1
    = if mp =? 11 then marchDay (y' + 1) else marchDay y' + monthStart (mp + 1).
Proof.
  intros Hmp. unfold civilOf.
  destruct (Z.ltb_spec mp 10) as [Hlt | Hge].
  - split.
    + rewrite days_from_civil_march by lia.
      rewrite (proj2 (Z.leb_gt (mp + 3) 2)) by lia.
      rewrite (proj2 (Z.ltb_lt 2 (mp + 3))) by lia.
      replace (mp + 3 - 3) with mp by lia. lia.
    + rewrite (proj2 (Z.eqb_neq mp 11)) by lia.
      assert (mp = 9 ∨ mp < 9) as [-> | Hlt9] by lia.
      * change ((9 + 3) / 12) with 1. change ((9 + 3) mod 12 + 1) with 1.
        rewrite days_from_civil_march by lia.
        change (1 <=? 2) with true. change (2 <? 1) with false. cbv beta iota.
        replace (y' + 1 - 1) with y' by lia.
        change (1 + 9) with 10. change (9 + 1) with 10. lia.
      * replace ((mp + 3) / 12) with 0 by (Z.to_euclidean_division_equations; lia).
        replace ((mp + 3) mod 12 + 1) with (mp + 4)
          by (Z.to_euclidean_division_equations; lia).
        rewrite days_from_civil_march by lia.
        rewrite (proj2 (Z.leb_gt (mp + 4) 2)) by lia.
        rewrite (proj2 (Z.ltb_lt 2 (mp + 4))) by lia.
        replace (y' + 0) with y' by lia.
        replace (mp + 4 - 3) with (mp + 1) by lia. lia.
  - split.
    + rewrite days_from_civil_march by lia.
      rewrite (proj2 (Z.leb_le (mp - 9) 2)) by lia.
      rewrite (proj2 (Z.ltb_ge 2 (mp - 9))) by lia.
      replace (y' + 1 - 1) with y' by lia.
      replace (mp - 9 + 9) with mp by lia. lia.
    + assert (mp = 10 ∨ mp = 11) as [-> | ->] by lia.
      * change ((10 - 9) / 12) with 0. change ((10 - 9) mod 12 + 1) with 2.
        rewrite days_from_civil_march by lia.
        change (2 <=? 2) with true. change (2 <? 2) with false. cbv beta iota.
        replace (y' + 1 + 0 - 1) with y' by lia.
        change (2 + 9) with 11. change (10 + 1) with 11.
        change (10 =? 11) with false. cbv beta iota. lia.
      * change ((11 - 9) / 12) with 0. change ((11 - 9) mod 12 + 1) with 3.
        rewrite days_from_civil_march by lia.
        change (3 <=? 2) with false. change (2 <? 3) with true. cbv beta iota.
        replace (y' + 1 + 0) with (y' + 1) by lia.
        change (3 - 3) with 0. change (11 =? 11) with true. cbv beta iota.
        change (monthStart 0) with 0. lia.
Qed.

(** The month around a day: its first day, the first day of the next
    month, and the dates in between. *)
Lemma civil_month z :
  let '(y, m, d) := civil_from_days z in
  let first := days_from_civil y m 1 in
  let next := days_from_civil (y + m / 12) (m mod 12 + 1) 1 in
  first = z - d + 1
  ∧ first <= z < next
  ∧ (∀ w, first <= w < next → civil_from_days w = (y, m, w - first + 1))
  ∧ (civil_from_days next).2 = 1.
Proof.
  destruct (civil_from_days_decompose z)
    as (y' & mp & d & Hmp & Hd & Hz & Hm & Hy & ->).
  pose proof (month_first y' mp d Hmp) as Hfirst.
  unfold civilOf in *. cbv zeta.
  set (y := if mp <? 10 then y' else y' + 1) in *.
  set (m := if mp <? 10 then mp + 3 else mp - 9) in *.
  destruct Hfirst as [HF HF2]. rewrite HF, HF2.
  pose proof (marchDay_next y') as Hnext.
  pose proof (monthStart_mono (mp + 1) 11) as Hmono.
  destruct monthStart_values as (_ & H11 & H12).
  assert (Hnextlt : (if mp =? 11 then marchDay (y' + 1)
                     else marchDay y' + monthStart (mp + 1))
                    <= marchDay (y' + 1)
                    ∧ (if mp =? 11 then marchDay (y' + 1)
                       else marchDay y' + monthStart (mp + 1))
                      <= marchDay y' + monthStart (mp + 1)).
  { destruct (Z.eqb_spec mp 11) as [-> | Hne].
    - change (11 + 1) with 12. lia.
    - specialize (Hmono ltac:(lia) ltac:(lia)). lia. }
  split; [lia |]. split; [| split].
  - split; [lia |]. destruct (Z.eqb_spec mp 11); lia.
  - intros w Hw.
    change (civil_from_days w = civilOf y' mp (w - (marchDay y' + monthStart mp) + 1)).
    apply civil_from_days_unique; lia.
  - destruct (Z.eqb_spec mp 11) as [-> | Hne].
    + rewrite (civil_from_days_unique (marchDay (y' + 1)) (y' + 1) 0 1);
        [done | lia | lia | | |].
      * change (monthStart 0) with 0. lia.
      * change (monthStart (0 + 1)) with 31. lia.
      * pose proof (marchDay_next (y' + 1)). lia.
    + rewrite (civil_from_days_unique (marchDay y' + monthStart (mp + 1)) y' (mp + 1) 1);
        [done | lia | lia | lia | |].
      * assert (monthStart (mp + 1) < monthStart (mp + 1 + 1))
          by (unfold monthStart; Z.to_euclidean_division_equations; lia).
        lia.
      * specialize (Hmono ltac:(lia) ltac:(lia)). lia.
Qed.

End CalendarMonths.

(** ** The initial range *)

Section InitialRangeFacts.
Variable offsetMs : Z.
Local Abbreviation fixed := (fixedHost offsetMs).

(** The local day numbers of the two ends set by the effect. *)
Lemma initialRange_local_days today :
  (0 <=? getFullYear (hz := fixed) today) && (getFullYear (hz := fixed) today <=? 99)
  = false →
  let '(y, m, d) := civil_from_days (Day (today + offsetMs)) in
  initialRangeEffect (hz := fixed) today (mkRange None None)
  = mkRange (Some (days_from_civil y m 1 * msPerDay - offsetMs))
            (Some ((days_from_civil (y + m / 12) (m mod 12 + 1) 1 - 1) * msPerDay
                   - offsetMs)).
Proof.
  intros Hyear. unfold initialRangeEffect. cbn [start end_].
  unfold newDate. rewrite Hyear.
  unfold getFullYear, getMonth, YearFromTime, MonthFromTime, UTC, LocalTime,
    LocalTZA, fixedHost, MakeDate, MakeDay.
  pose proof (civil_from_days_month (Day (today + offsetMs))) as Hm.
  destruct (civil_from_days (Day (today + offsetMs))) as [[y m] d].
  cbn [fst snd] in *.
  replace (m - 1 + 1) with m by lia.
  replace ((m - 1) / 12) with 0 by (Z.to_euclidean_division_equations; lia).
  replace ((m - 1) mod 12 + 1) with m by (Z.to_euclidean_division_equations; lia).
  replace (y + 0) with y by lia. f_equal; f_equal; lia.
Qed.

End InitialRangeFacts.

(** What the effect installs, on a host without clock changes. *)
Lemma initialRange_month_facts (offsetMs today : Z) :
  ¬ (0 <= getFullYear (hz := fixedHost offsetMs) today <= 99) →
  ∃ s e,
    initialRangeEffect (hz := fixedHost offsetMs) today (mkRange None None)
    = mkRange (Some s) (Some e)
    ∧ getDate (hz := fixedHost offsetMs) s = 1
    ∧ TimeWithinDay (LocalTime (hz := fixedHost offsetMs) s) = 0
    ∧ TimeWithinDay (LocalTime (hz := fixedHost offsetMs) e) = 0
    ∧ s <= today < e + msPerDay
    ∧ (∀ d, s <= d < e + msPerDay →
            getFullYear (hz := fixedHost offsetMs) d
            = getFullYear (hz := fixedHost offsetMs) today
            ∧ getMonth (hz := fixedHost offsetMs) d
              = getMonth (hz := fixedHost offsetMs) today)
    ∧ getDate (hz := fixedHost offsetMs) (e + msPerDay) = 1.
Proof.
  intros Hyear.
  assert (Hy : (0 <=? getFullYear (hz := fixedHost offsetMs) today)
               && (getFullYear (hz := fixedHost offsetMs) today <=? 99) = false).
  { apply andb_false_iff.
    destruct (Z.leb_spec 0 (getFullYear (hz := fixedHost offsetMs) today));
      [| by left].
    right. apply Z.leb_gt. lia. }
  pose proof (initialRange_local_days offsetMs today Hy) as Hrange.
  pose proof (civil_month (Day (today + offsetMs))) as Hmonth.
  unfold getFullYear, getMonth, getDate, YearFromTime, MonthFromTime,
    DateFromTime, LocalTime, LocalTZA, fixedHost in *.
  destruct (civil_from_days (Day (today + offsetMs))) as [[y m] d] eqn:Hciv.
  cbv zeta in Hmonth. cbn [fst snd] in *.
  set (first := days_from_civil y m 1) in *.
  set (next := days_from_civil (y + m / 12) (m mod 12 + 1) 1) in *.
  destruct Hmonth as (Hfirst & Hz & Hin & Hnext).
  exists (first * msPerDay - offsetMs), ((next - 1) * msPerDay - offsetMs).
  assert (Hday : ∀ w, Day (w * msPerDay - offsetMs + offsetMs) = w).
  { intros w. replace (w * msPerDay - offsetMs + offsetMs) with (w * msPerDay) by lia.
    unfold Day, msPerDay. by rewrite Z.div_mul. }
  assert (Htod : ∀ w, TimeWithinDay (w * msPerDay - offsetMs + offsetMs) = 0).
  { intros w. replace (w * msPerDay - offsetMs + offsetMs) with (w * msPerDay) by lia.
    unfold TimeWithinDay, msPerDay. by rewrite Z.mod_mul. }
  assert (Hbounds : ∀ t, Day (t + offsetMs) * msPerDay <= t + offsetMs
                         < (Day (t + offsetMs) + 1) * msPerDay).
  { intros t. unfold Day, msPerDay. Z.to_euclidean_division_equations; lia. }
  split; [exact Hrange |]. split.
  { rewrite Hday, (Hin first) by lia. simpl. lia. }
  split; [apply Htod |]. split; [apply Htod |]. split.
  { pose proof (Hbounds today) as Ht. unfold msPerDay in *. nia. }
  split.
  - intros t Ht. pose proof (Hbounds t) as Hb.
    assert (first <= Day (t + offsetMs) < next) by (unfold msPerDay in *; nia).
    by rewrite (Hin (Day (t + offsetMs))).
  - replace ((next - 1) * msPerDay - offsetMs + msPerDay + offsetMs)
      with (next * msPerDay) by lia.
    replace (Day (next * msPerDay)) with next; [done |].
    unfold Day, msPerDay. by rewrite Z.div_mul.
Qed.

(** X24: on a host without clock changes, and for a current year outside
    0..99 (which [new Date(year, ...)] reads as 1900 + year), the effect
    sets the range to the current month: it starts at local midnight of the
    first day of the month of [today] and ends at local midnight of that
    month's last day; [today] lies between the start and the end of the last
    day, every instant from the start to the end of the last day has the
    year and month of [today], and the day after the end is the first of a
    month. *)
Theorem initialRangeEffect_current_month (offsetMs today : Z) :
  ¬ (0 <= getFullYear (hz := fixedHost offsetMs) today <= 99) →
  ∃ s e,
    initialRangeEffect (hz := fixedHost offsetMs) today (mkRange None None)
    = mkRange (Some s) (Some e)
    ∧ getDate (hz := fixedHost offsetMs) s = 1
    ∧ TimeWithinDay (LocalTime (hz := fixedHost offsetMs) s) = 0
    ∧ TimeWithinDay (LocalTime (hz := fixedHost offsetMs) e) = 0
    ∧ s <= today < e + msPerDay
    ∧ (∀ d, s <= d < e + msPerDay →
            getFullYear (hz := fixedHost offsetMs) d
            = getFullYear (hz := fixedHost offsetMs) today
            ∧ getMonth (hz := fixedHost offsetMs) d
              = getMonth (hz := fixedHost offsetMs) today)
    ∧ getDate (hz := fixedHost offsetMs) (e + msPerDay) = 1.
Proof. apply initialRange_month_facts. Qed.

Lemma initialRangeEffect_current_month_witness :
  ∃ s e,
    initialRangeEffect (hz := fixedHost 0) t_2024_07_04 (mkRange None None)
    = mkRange (Some s) (Some e)
    ∧ s = 1719792000000 ∧ e = 1722384000000
    ∧ getDate (hz := fixedHost 0) (e + msPerDay) = 1.
Proof.
  assert (Hyear : ¬ (0 <= getFullYear (hz := fixedHost 0) t_2024_07_04 <= 99))
    by (vm_compute; intros [_ H]; by apply H).
  destruct (initialRangeEffect_current_month 0 t_2024_07_04 Hyear)
    as (s & e & Hrange & _ & _ & _ & _ & _ & Hnext).
  exists s, e. split; [exact Hrange |].
  assert (Hrun : initialRangeEffect (hz := fixedHost 0) t_2024_07_04 (mkRange None None)
                 = mkRange (Some 1719792000000) (Some 1722384000000))
    by (vm_compute; reflexivity).
  rewrite Hrun in Hrange. injection Hrange as <- <-.
  split; [reflexivity |]. split; [reflexivity | exact Hnext].
Defined.

Lemma NoDup_only {A} (l : list A) (x : A) :
  NoDup l → (∀ y, y ∈ l ↔ y = x) → l = [x].
Proof.
  intros Hnd Hin. destruct l as [| a l].
  - exfalso. apply (not_elem_of_nil x). by apply Hin.
  - assert (a = x) as -> by (apply Hin; apply list_elem_of_here).
    destruct l as [| b l]; [done |].
    assert (b = x) as -> by (apply Hin; apply list_elem_of_further, list_elem_of_here).
    apply NoDup_cons in Hnd as [Hx _]. exfalso. apply Hx, list_elem_of_here.
Qed.

(** X25: on a host without clock changes, and for a current year outside
    0..99, the range installed by the effect needs the holidays of one year
    only: [getYearsInRange] on it returns exactly the current year. *)
Theorem initialRange_years (offsetMs today : Z) :
  ¬ (0 <= getFullYear (hz := fixedHost offsetMs) today <= 99) →
  ∃ s e,
    initialRangeEffect (hz := fixedHost offsetMs) today (mkRange None None)
    = mkRange (Some s) (Some e)
    ∧ getYearsInRange (hz := fixedHost offsetMs) (S (steps s e)) (Some s) (Some e)
      = Some [getFullYear (hz := fixedHost offsetMs) today].
Proof.
  intros Hyear.
  destruct (initialRange_month_facts offsetMs today Hyear)
    as (s & e & Hrange & _ & Hs0 & He0 & Htoday & Hmonth & _).
  exists s, e. split; [done |].
  destruct (getYearsInRange_fixed_host offsetMs s e) as (years & Hrun & Hnd & Hin).
  rewrite Hrun. f_equal. apply NoDup_only; [done |].
  assert (Hse : s <= e).
  { unfold TimeWithinDay, LocalTime, LocalTZA, fixedHost, msPerDay in *.
    Z.to_euclidean_division_equations; lia. }
  intros y. rewrite Hin. split.
  - intros (k & Hk & Hke & ->).
    destruct (Hmonth (s + k * msPerDay)) as [Hy _]; [| exact Hy].
    unfold msPerDay in *. lia.
  - intros ->. exists 0. split; [lia |]. split; [lia |]. symmetry.
    destruct (Hmonth (s + 0 * msPerDay)) as [Hy _]; [| exact Hy].
    unfold msPerDay in *. lia.
Qed.

Lemma initialRange_years_witness :
  ∃ s e,
    initialRangeEffect (hz := fixedHost 0) t_2024_07_04 (mkRange None None)
    = mkRange (Some s) (Some e)
    ∧ getYearsInRange (hz := fixedHost 0) (S (steps s e)) (Some s) (Some e)
      = Some [2024].
Proof.
  assert (Hyear : ¬ (0 <= getFullYear (hz := fixedHost 0) t_2024_07_04 <= 99))
    by (vm_compute; intros [_ H]; by apply H).
  destruct (initialRange_years 0 t_2024_07_04 Hyear) as (s & e & Hrange & Hyears).
  exists s, e. split; [exact Hrange |].
  assert (Hy : getFullYear (hz := fixedHost 0) t_2024_07_04 = 2024)
    by (vm_compute; reflexivity).
  by rewrite Hy in Hyears.
Defined.

(** ** The two renderings of a date *)

Section DateStringFacts.

Lemma length_append (s1 s2 : string) :
  String.length (s1 +:+ s2) = (String.length s1 + String.length s2)%nat.
Proof.
  induction s1 as [| c s1 IH]; [done |].
  change (String c s1 +:+ s2) with (String c (s1 +:+ s2)). simpl. by rewrite IH.
Qed.

Lemma length_zeros (n : nat) :
  String.length (String.concat "" (replicate n "0"%string)) = n.
Proof.
  induction n as [| n IH]; [done |].
  destruct n as [| n]; [done |].
  change (String.length (String.concat "" (replicate (S (S n)) "0"%string)))
    with (String.length ("0" +:+ "" +:+ String.concat "" (replicate (S n) "0"%string))).
  rewrite !length_append, IH. done.
Qed.

Lemma substring_all (s : string) : String.substring 0 (String.length s) s = s.
Proof. induction s as [| c s IH]; [done |]. simpl. by rewrite IH. Qed.

Lemma pretty_N_go_length (k : nat) (x : N) (s : string) :
  (x < 10 ^ N.of_nat k)%N →
  (String.length (pretty_N_go x s) <= k + String.length s)%nat.
Proof.
  revert x s. induction k as [| k IH]; intros x s Hx.
  - assert (x = 0%N) as -> by (simpl in Hx; lia). rewrite pretty_N_go_0. lia.
  - destruct (decide (x = 0%N)) as [-> | Hne]; [rewrite pretty_N_go_0; lia |].
    rewrite pretty_N_go_step by lia.
    etrans; [apply IH |]; [| simpl; lia].
    rewrite Nat2N.inj_succ, N.pow_succ_r' in Hx.
    apply N.Div0.div_lt_upper_bound. lia.
Qed.

Lemma pretty_Z_length (k : nat) (n : Z) :
  0 <= n < 10 ^ Z.of_nat k → (1 <= k)%nat →
  (String.length (pretty n) <= k)%nat.
Proof.
  intros Hn Hk. destruct n as [| p | p]; [simpl; lia | | lia].
  change (pretty (Z.pos p)) with (pretty (N.pos p)).
  unfold pretty, pretty_N. rewrite decide_False by done.
  pose proof (pretty_N_go_length k (N.pos p) "") as Hlen. simpl in Hlen.
  rewrite Nat.add_0_r in Hlen. apply Hlen.
  assert (Z.of_N (N.pos p) < Z.of_N (10 ^ N.of_nat k)); [| lia].
  rewrite N2Z.inj_pow, nat_N_Z. simpl. lia.
Qed.

Lemma zeroFill_length (width : nat) (n : Z) :
  0 <= n < 10 ^ Z.of_nat width → (1 <= width)%nat →
  String.length (zeroFill width n) = width.
Proof.
  intros Hn Hw. unfold zeroFill. cbv zeta.
  rewrite Z.abs_eq by lia.
  pose proof (pretty_Z_length width n Hn Hw).
  rewrite length_append, length_zeros. lia.
Qed.

Lemma civil_from_days_day z : 1 <= (civil_from_days z).2 <= 31.
Proof.
  destruct (civil_from_days_decompose z)
    as (y' & mp & d & Hmp & Hd & Hz & Hm & Hy & ->).
  simpl. split; [done |].
  assert (monthStart (mp + 1) - monthStart mp <= 31)
    by (unfold monthStart; Z.to_euclidean_division_equations; lia).
  lia.
Qed.

(** For a year from 0 to 9999 the two renderings of a day coincide and
    have ten characters. *)
Lemma date_strings_agree t :
  0 <= YearFromTime t <= 9999 →
  slice_0_10 (isoDateString t) = momentDateString t.
Proof.
  unfold YearFromTime, isoDateString, momentDateString. intros Hy.
  pose proof (civil_from_days_month (Day t)) as Hm.
  pose proof (civil_from_days_day (Day t)) as Hd.
  destruct (civil_from_days (Day t)) as [[y m] d]. cbn [fst snd] in *.
  unfold isoYear, momentYear.
  rewrite (proj2 (Z.leb_le 0 y)), (proj2 (Z.leb_le y 9999)) by lia.
  rewrite (proj2 (Z.ltb_ge y 0)) by lia. cbn [andb].
  change ("" +:+ zeroFill 4 y) with (zeroFill 4 y).
  set (s := zeroFill 4 y +:+ "-" +:+ zeroFill 2 m +:+ "-" +:+ zeroFill 2 d).
  assert (Hlen : String.length s = 10%nat).
  { subst s. rewrite !length_append.
    rewrite (zeroFill_length 4 y), (zeroFill_length 2 m), (zeroFill_length 2 d);
      simpl; lia. }
  unfold slice_0_10. rewrite <- Hlen. apply substring_all.
Qed.

End DateStringFacts.

Lemma momentDateString_Day t1 t2 :
  Day t1 = Day t2 → momentDateString t1 = momentDateString t2.
Proof. unfold momentDateString. by intros ->. Qed.

(** X26: on a host in UTC, for a date in the years 0 to 9999, the two
    holiday checks read the same date string, and a date of the view gets
    the "All: Holiday" event exactly when every country code has a record of
    type "Public" on that date. *)
Theorem filterEvents_holiday_utc_host (codes : list string)
    (hbc : gmap string (list HolidayRecord)) (allDates_ : list Z) (d : Z) :
  0 <= getFullYear (hz := utcHost) d <= 9999 →
  toISOString_slice d = moment_format (hz := utcHost) d
  ∧ (d ∈ map ev_start (filterEvents (hz := utcHost) codes hbc "holiday" allDates_)
     ↔ d ∈ allDates_
       ∧ ∀ code, code ∈ codes →
                 hasPublicRecordOn hbc code (moment_format (hz := utcHost) d)).
Proof.
  intros Hyear.
  assert (Hstr : toISOString_slice d = moment_format (hz := utcHost) d).
  { unfold toISOString_slice, moment_format, getFullYear, LocalTime, LocalTZA,
      utcHost, fixedHost in *.
    replace (d + 0) with d in * by lia. by apply date_strings_agree. }
  split; [done |]. rewrite filterEvents_holiday_elem, Hstr.
  split; [tauto |]. intros [Hd Hpub]. split; [done |]. split; [| done].
  intros code Hcode. destruct (Hpub code Hcode) as (h & Hin & Hdate & _).
  by exists h.
Qed.

Lemma filterEvents_holiday_utc_host_witness :
  0 <= getFullYear (hz := utcHost) t_2024_07_04 <= 9999
  ∧ toISOString_slice t_2024_07_04 = moment_format (hz := utcHost) t_2024_07_04
  ∧ (t_2024_07_04
       ∈ map ev_start (filterEvents (hz := utcHost) ["US"] (usOnly "Public")
                                    "holiday" [t_2024_07_04])
     ↔ t_2024_07_04 ∈ [t_2024_07_04]
       ∧ ∀ code, code ∈ ["US"] →
                 hasPublicRecordOn (usOnly "Public") code
                                   (moment_format (hz := utcHost) t_2024_07_04)).
Proof.
  assert (Hyear : 0 <= getFullYear (hz := utcHost) t_2024_07_04 <= 9999)
    by (vm_compute; split; discriminate).
  split; [exact Hyear |].
  exact (filterEvents_holiday_utc_host ["US"] (usOnly "Public") [t_2024_07_04]
           t_2024_07_04 Hyear).
Defined.

(** X27: on a host east of UTC without clock changes, [isHoliday] reads a
    date at local midnight (as the dates of the calendar are) one day early:
    the date string it compares is the local date of the day before, so the
    date passes exactly when every country code has a record dated the
    previous local day. *)
Theorem isHoliday_east_of_utc (offsetMs : Z) (codes : list string)
    (hbc : gmap string (list HolidayRecord)) (d : Z) :
  0 < offsetMs < msPerDay →
  TimeWithinDay (LocalTime (hz := fixedHost offsetMs) d) = 0 →
  0 <= YearFromTime d <= 9999 →
  toISOString_slice d = moment_format (hz := fixedHost offsetMs) (d - msPerDay)
  ∧ (isHoliday codes hbc d = true
     ↔ ∀ code, code ∈ codes →
               hasRecordOn hbc code
                           (moment_format (hz := fixedHost offsetMs) (d - msPerDay))).
Proof.
  intros Ho Hmid Hyear.
  assert (Hstr : toISOString_slice d
                 = moment_format (hz := fixedHost offsetMs) (d - msPerDay)).
  { unfold toISOString_slice, moment_format. rewrite date_strings_agree by done.
    apply momentDateString_Day.
    unfold TimeWithinDay, LocalTime, LocalTZA, fixedHost, Day, msPerDay in *.
    Z.to_euclidean_division_equations; lia. }
  split; [done |]. by rewrite isHoliday_spec, Hstr.
Qed.

Lemma isHoliday_east_of_utc_witness :
  0 < 8 * msPerHour < msPerDay
  ∧ TimeWithinDay (LocalTime (hz := fixedHost (8 * msPerHour))
                             (t_2024_07_04 - 8 * msPerHour)) = 0
  ∧ toISOString_slice (t_2024_07_04 - 8 * msPerHour) = "2024-07-03"%string
  ∧ moment_format (hz := fixedHost (8 * msPerHour)) (t_2024_07_04 - 8 * msPerHour)
    = "2024-07-04"%string
  ∧ toISOString_slice (t_2024_07_04 - 8 * msPerHour)
    = moment_format (hz := fixedHost (8 * msPerHour))
                    (t_2024_07_04 - 8 * msPerHour - msPerDay).
Proof.
  assert (H1 : 0 < 8 * msPerHour < msPerDay) by (vm_compute; split; reflexivity).
  assert (H2 : TimeWithinDay (LocalTime (hz := fixedHost (8 * msPerHour))
                                        (t_2024_07_04 - 8 * msPerHour)) = 0)
    by (vm_compute; reflexivity).
  assert (H3 : 0 <= YearFromTime (t_2024_07_04 - 8 * msPerHour) <= 9999)
    by (vm_compute; split; discriminate).
  split; [exact H1 |]. split; [exact H2 |].
  split; [vm_compute; reflexivity |]. split; [vm_compute; reflexivity |].
  exact (proj1 (isHoliday_east_of_utc (8 * msPerHour) [] ∅
                  (t_2024_07_04 - 8 * msPerHour) H1 H2 H3)).
Defined.

(** ** The year of a day number against the standard's definition *)

Lemma DayFromYear_march y : DayFromYear y = marchDay (y - 1) + 306.
Proof. unfold DayFromYear, marchDay. Z.to_euclidean_division_equations; lia. Qed.

(** [YearFromTime(t)] is the year [y] with
    [DayFromYear(y) <= Day(t) < DayFromYear(y + 1)], as ECMA-262 defines it. *)
Lemma YearFromTime_DayFromYear t :
  DayFromYear (YearFromTime t) <= Day t < DayFromYear (YearFromTime t + 1).
Proof.
  unfold YearFromTime.
  destruct (civil_from_days_decompose (Day t))
    as (y' & mp & d & Hmp & Hd & Hz & Hm & Hy & ->).
  unfold civilOf. cbn [fst snd]. rewrite !DayFromYear_march.
  pose proof (marchDay_next (y' - 1)) as Hprev.
  replace (y' - 1 + 1) with y' in Hprev by lia.
  pose proof (marchDay_next y') as Hnext.
  assert (H10 : monthStart 10 = 306) by reflexivity.
  assert (Hms : 0 <= monthStart mp)
    by (unfold monthStart; Z.to_euclidean_division_equations; lia).
  destruct (Z.ltb_spec mp 10) as [Hlt | Hge].
  - replace (y' + 1 - 1) with y' by lia.
    pose proof (monthStart_mono (mp + 1) 10 ltac:(lia) ltac:(lia)). lia.
  - replace (y' + 1 - 1) with y' by lia. replace (y' + 1 + 1 - 1) with (y' + 1) by lia.
    pose proof (monthStart_mono 10 mp ltac:(lia) ltac:(lia)). lia.
Qed.

(** ** No request twice in a run *)

Section FetchNoDup.
Implicit Types (cache : gmap string (gmap Z (list HolidayRecord))).
Implicit Types (tasks : list Request) (codes : list string) (years : list Z).

Lemma yearsForEach_NoDup cache code years tasks :
  NoDup years → NoDup tasks →
  (∀ y, y ∈ years → (y, code) ∉ tasks) →
  NoDup (yearsForEach cache code years tasks).
Proof.
  unfold yearsForEach. revert tasks.
  induction years as [| year years IH]; intros tasks Hy Ht Hfresh; [done |].
  apply NoDup_cons in Hy as [Hyear Hy]. simpl. apply IH; [done | |].
  - destruct (cached cache code year); [done |].
    apply NoDup_app. split; [done |]. split; [| apply NoDup_singleton].
    intros req Hreq Hreq'. apply list_elem_of_singleton in Hreq' as ->.
    by apply (Hfresh year (list_elem_of_here _ _)).
  - intros y Hin. destruct (cached cache code year).
    + apply Hfresh. by apply list_elem_of_further.
    + rewrite elem_of_app, list_elem_of_singleton. intros [Hreq | [= ->]].
      * by apply (Hfresh y (list_elem_of_further _ _ _ Hin)).
      * done.
Qed.

Lemma codesForEach_fold_NoDup codes years cache tasks cache' tasks' :
  NoDup codes → NoDup years → NoDup tasks →
  (∀ c y, c ∈ codes → (y, c) ∉ tasks) →
  fold_left (λ '(cache, tasks) code,
               let cache' :=
                 match cache !! code with
                 | None => <[code := ∅]> cache
                 | Some _ => cache
                 end in
               (cache', yearsForEach cache' code years tasks))
            codes (cache, tasks) = (cache', tasks') →
  NoDup tasks'.
Proof.
  revert cache tasks.
  induction codes as [| code codes IH]; intros cache tasks Hc Hy Ht Hfresh; simpl.
  - by intros [= _ <-].
  - apply NoDup_cons in Hc as [Hcode Hc].
    apply IH; [done | done | |].
    + apply yearsForEach_NoDup; [done | done |].
      intros y _. apply Hfresh, list_elem_of_here.
    + intros c y Hin Hreq.
      apply yearsForEach_elem_of in Hreq as [Hreq | (Heq & _)].
      * by apply (Hfresh c y (list_elem_of_further _ _ _ Hin)).
      * simpl in Heq. by subst.
Qed.

End FetchNoDup.

(** X28: a run of the fetch effect for the participants' country codes
    never issues the same request twice: the requests of one run are
    pairwise distinct. *)
Theorem fetchEffect_requests_NoDup `{hz : HostZone} (fuel : nat)
    (calendarRange : CalendarRange) (selectedParticipants : list Participant)
    (refs refs' : FetchRefs) (reqs : list Request) :
  fetchEffect fuel calendarRange (countryCodes selectedParticipants) refs
  = Some (reqs, refs') →
  NoDup reqs.
Proof.
  unfold fetchEffect. intros Hrun.
  destruct (start calendarRange) as [s |];
    [| injection Hrun as <- _; apply NoDup_nil_2].
  destruct (end_ calendarRange) as [e |];
    [| injection Hrun as <- _; apply NoDup_nil_2].
  case_bool_decide; [injection Hrun as <- _; apply NoDup_nil_2 |].
  destruct (getYearsInRange fuel (Some s) (Some e)) as [years |] eqn:Hyears;
    [| done].
  simpl in Hrun.
  destruct (String.eqb _ _); [injection Hrun as <- _; apply NoDup_nil_2 |].
  destruct (codesForEach (countryCodes selectedParticipants) years
                         (holidaysCache refs)) as [cache' tasks] eqn:Hfor.
  injection Hrun as <- _. unfold codesForEach in Hfor.
  eapply codesForEach_fold_NoDup; [| | | | exact Hfor].
  - apply countryCodes_NoDup.
  - eapply yearsLoop_NoDup; [| exact Hyears]. apply NoDup_nil_2.
  - apply NoDup_nil_2.
  - intros c y _. apply not_elem_of_nil.
Qed.

Lemma fetchEffect_requests_NoDup_witness :
  ∃ reqs refs',
    fetchEffect (hz := utcHost) 10 (mkRange (Some t_2024_12_30) (Some t_2025_01_01))
                (countryCodes [tokyo; phoenix; oceanClick; tokyo]) initialRefs
    = Some (reqs, refs')
    ∧ reqs = [(2024, "JP"); (2025, "JP"); (2024, "US"); (2025, "US")]
    ∧ NoDup reqs.
Proof.
  eexists. eexists.
  match goal with
  | |- ?run ∧ _ => assert (Hrun : run) by (vm_compute; reflexivity)
  end.
  split; [exact Hrun |]. split; [reflexivity |].
  exact (fetchEffect_requests_NoDup (hz := utcHost) _ _ _ _ _ _ Hrun).
Defined.
